(** * options_analyzer.py: contract filter, return ranker, scenario evaluator

    A shallow embedding of the three numeric routines of
    [src/options_analyzer.py]:

    - [filter_options_by_investment]  (the Contract Filter),
    - [calculate_annualized_returns]  (the Return Ranker),
    - [calculate_option_value]        (the Scenario Evaluator),

    together with the glue of [main] that builds the evaluator's
    [selected_data] from a ranked row, and, further down, more of the
    program: [select_expiration], [display_filtered_options],
    [display_top_returns], [calculate_pnl], and the strategy prompt and the
    filter call of [main], with the console as a list of typed lines.  Of
    the printing routines only the numbers put on screen are kept, not their
    formatting.

    Modelling decisions.
    - Prices are exact rationals ([Q]); rounding of binary floats is not
      modelled, nor are nan and the infinities.  Numeric results are
      compared with [==] ([Qeq]).  A test such as [cost <= amount] is made
      on the exact values, so at an exact tie it can differ from the test
      the code makes on rounded ones; statements are worded to stay clear
      of such ties where they say what is returned.
    - A strategy is the string the code compares with ['call'], ['put'],
      ['covered_call'], ['cash_secured_put'].
    - A Python dict with a fixed set of keys is a record; a key that may be
      absent is an [option] field.
    - Exceptions are explicit: every routine returns a [result].
    - Dates are proleptic ordinals ([date.toordinal()]), so
      [(exp_date - today).days] is a subtraction in [Z].
    - [list.sort] is stable; it is modelled by a stable insertion sort.
    - The float power [**] is a parameter ([fpow]) of the ranker and of the
      evaluator, total on [Q]: the OverflowError of a result too large for a
      float, and a negative base under a fractional exponent, are not
      modelled. *)

From Stdlib Require Import QArith Qround Qpower ZArith List String Bool.
From Stdlib Require Import Permutation Sorted Lia Lqa.
Import ListNotations.

Open Scope Q_scope.

(** ** Exceptions *)

Inductive exn : Type :=
| UnboundLocalError
| TypeError
| KeyError
| ZeroDivisionError.

Inductive result (A : Type) : Type :=
| Ok (a : A)
| Raise (e : exn).

Arguments Ok {A} a.
Arguments Raise {A} e.

Definition bind {A B : Type} (m : result A) (k : A -> result B) : result B :=
  match m with
  | Ok a => k a
  | Raise e => Raise e
  end.

Notation "x <- m ;; k" := (bind m (fun x => k))
  (at level 61, m at next level, right associativity).

(** ** Numbers *)

(** [a < b] and [a > b] of the source, as booleans. *)
Definition Qlt_bool (a b : Q) : bool := negb (Qle_bool b a).
Definition Qgt_bool (a b : Q) : bool := Qlt_bool b a.

(** [a / b] on Python numbers: a zero divisor raises. *)
Definition py_div (a b : Q) : result Q :=
  if Qeq_bool b 0 then Raise ZeroDivisionError else Ok (a / b).

(** ** Data *)

(** One row of the options chain (a pandas row). *)
Module Row.
Record t : Type := mk {
  strike : Q;
  lastPrice : Q;
  volume : option Z;
  openInterest : option Z
}.
End Row.

(** The dict appended by [filter_options_by_investment].  The ranker reads
    [opt.get('stock_price', strike)]: the key may be absent, and the filter
    never sets it. *)
Module Cand.
Record t : Type := mk {
  strike : Q;
  premium : Q;
  breakeven : Q;
  cost : Q;
  remaining_budget : Q;
  option_data : Row.t;
  stock_price : option Q
}.
End Cand.

(** The dict appended by [calculate_annualized_returns]. *)
Module Ranked.
Record t : Type := mk {
  strike : Q;
  premium : Q;
  breakeven : Q;
  profit : Q;
  percent_return : Q;
  annualized_return : Q;
  option_data : Row.t
}.
End Ranked.

(** [selected_data] of [main]: ['stock_price'] is always present and may be
    [None]; the call keys and the put keys are present for some strategies
    only. *)
Module Selected.
Record t : Type := mk {
  stock_price : option Q;
  call_strike : option Q;
  call_option : option Row.t;
  put_strike : option Q;
  put_option : option Row.t
}.
End Selected.

(** The dict returned by [calculate_option_value]. *)
Module Report.
Record t : Type := mk {
  strategy : string;
  days_to_expiration : Z;
  future_price : Q;
  strike : Q;
  premium : Q;
  value_at_expiration : Q;
  profit : Q;
  percent_return : Q;
  annualized_return : Q
}.
End Report.

(** ** Strategies *)

Definition valid_strategy (s : string) : bool :=
  (s =? "call")%string || (s =? "put")%string
  || (s =? "covered_call")%string || (s =? "cash_secured_put")%string.

(** ** list.sort(key=..., reverse=...) *)

Section Sort.
Context {A : Type}.
Variable key : A -> Q.
Variable reverse : bool.

(** [x], which stood before [y] in the list, stays before it. *)
Definition goes_before (x y : A) : bool :=
  if reverse then Qle_bool (key y) (key x) else Qle_bool (key x) (key y).

Fixpoint insert_by (x : A) (l : list A) : list A :=
  match l with
  | [] => [x]
  | y :: ys => if goes_before x y then x :: l else y :: insert_by x ys
  end.

Definition list_sort (l : list A) : list A :=
  fold_right insert_by [] l.
End Sort.

(** ** filter_options_by_investment *)

Definition meets_target (target_breakeven : option Q) (below : bool) (breakeven : Q) : bool :=
  match target_breakeven with
  | None => true
  | Some t => if below then Qlt_bool breakeven t else Qgt_bool breakeven t
  end.

(** The body of the [if]/[elif] chain for one row: contract cost, breakeven
    and [meets_breakeven_criteria].  With a strategy outside the chain the
    three names stay unbound and the test that follows raises. *)
Definition cost_and_breakeven (strategy : string) (stock_price target_breakeven : option Q)
    (strike premium : Q) : result (Q * Q * bool) :=
  if (strategy =? "call")%string then
    let contract_cost := premium * 100 in
    let breakeven := strike + premium in
    Ok (contract_cost, breakeven, meets_target target_breakeven true breakeven)
  else if (strategy =? "put")%string then
    let contract_cost := premium * 100 in
    let breakeven := strike - premium in
    Ok (contract_cost, breakeven, meets_target target_breakeven false breakeven)
  else if (strategy =? "covered_call")%string then
    match stock_price with
    | None => Raise TypeError
    | Some s =>
        let contract_cost := (s * 100) - (premium * 100) in
        let breakeven := s - premium in
        Ok (contract_cost, breakeven, meets_target target_breakeven true breakeven)
    end
  else if (strategy =? "cash_secured_put")%string then
    let contract_cost := (strike * 100) - (premium * 100) in
    let breakeven := strike - premium in
    Ok (contract_cost, breakeven, meets_target target_breakeven false breakeven)
  else Raise UnboundLocalError.

(** One iteration: the candidate appended for [option], if any. *)
Definition filter_row (strategy : string) (investment_amount : Q)
    (stock_price target_breakeven : option Q) (option : Row.t) : result (list Cand.t) :=
  let strike := Row.strike option in
  let premium := Row.lastPrice option in
  cbm <- cost_and_breakeven strategy stock_price target_breakeven strike premium ;;
  let '(contract_cost, breakeven, meets_breakeven_criteria) := cbm in
  if Qle_bool contract_cost investment_amount && meets_breakeven_criteria then
    Ok [Cand.mk strike premium breakeven contract_cost
          (investment_amount - contract_cost) option None]
  else Ok [].

(** The loop over [options.iterrows()]. *)
Fixpoint filter_loop (strategy : string) (investment_amount : Q)
    (stock_price target_breakeven : option Q) (options : list Row.t) : result (list Cand.t) :=
  match options with
  | [] => Ok []
  | option :: rest =>
      here <- filter_row strategy investment_amount stock_price target_breakeven option ;;
      later <- filter_loop strategy investment_amount stock_price target_breakeven rest ;;
      Ok (here ++ later)
  end.

Definition filter_options_by_investment (options : list Row.t) (strategy : string)
    (investment_amount : Q) (stock_price target_breakeven : option Q) : result (list Cand.t) :=
  filtered_options <- filter_loop strategy investment_amount stock_price target_breakeven options ;;
  Ok (list_sort Cand.strike false filtered_options).

(** ** Returns: the ranker and the evaluator *)

(** [selected_data['k']] on a key that may be absent. *)
Definition lookup {A : Type} (v : option A) : result A :=
  match v with
  | Some a => Ok a
  | None => Raise KeyError
  end.

(** Arithmetic on a price that may be [None]. *)
Definition number (v : option Q) : result Q :=
  match v with
  | Some a => Ok a
  | None => Raise TypeError
  end.

(** [max(1, (exp_date - today).days)] of the ranker. *)
Definition ranker_days (today exp_date : Z) : Z :=
  Z.max 1 (exp_date - today).

(** The evaluator's [if days_to_expiration <= 0: days_to_expiration = 1]. *)
Definition evaluator_days (today exp_date : Z) : Z :=
  let days_to_expiration := (exp_date - today)%Z in
  if (days_to_expiration <=? 0)%Z then 1%Z else days_to_expiration.

(** The locals [option_value], [profit] and [investment] that the ranker
    binds for one candidate. *)
Definition ranker_payoff (strategy : string) (target_price : Q) (opt : Cand.t)
    : result (Q * Q * Q) :=
  let strike := Cand.strike opt in
  let premium := Cand.premium opt in
  if (strategy =? "call")%string then
    let option_value := if Qgt_bool target_price strike then target_price - strike else 0 in
    let profit := option_value - premium in
    Ok (option_value, profit, premium)
  else if (strategy =? "put")%string then
    let option_value := if Qlt_bool target_price strike then strike - target_price else 0 in
    let profit := option_value - premium in
    Ok (option_value, profit, premium)
  else if (strategy =? "covered_call")%string then
    let current_price :=
      match Cand.stock_price opt with Some s => s | None => strike end in
    let stock_profit := target_price - current_price in
    let option_value := if Qgt_bool target_price strike then - (target_price - strike) else 0 in
    let profit := stock_profit + premium + option_value in
    Ok (option_value, profit, current_price)
  else if (strategy =? "cash_secured_put")%string then
    let option_value := if Qlt_bool target_price strike then - (strike - target_price) else 0 in
    let profit := premium + option_value in
    Ok (option_value, profit, strike)
  else Raise UnboundLocalError.

Section Returns.
Variable fpow : Q -> Q -> Q.

(** [((1 + (percent_return / 100)) ** (365 / days_to_expiration) - 1) * 100] *)
Definition annualize (percent_return : Q) (days_to_expiration : Z) : Q :=
  (fpow (1 + (percent_return / 100)) (365 / inject_Z days_to_expiration) - 1) * 100.

(** The ranker's guarded returns. *)
Definition ranker_returns (profit investment : Q) (days_to_expiration : Z) : Q * Q :=
  if Qgt_bool investment 0 then
    let percent_return := (profit / investment) * 100 in
    (percent_return, annualize percent_return days_to_expiration)
  else (0, 0).

(** One iteration of the ranker's loop. *)
Definition rank_row (strategy : string) (target_price : Q) (days_to_expiration : Z)
    (opt : Cand.t) : result Ranked.t :=
  p <- ranker_payoff strategy target_price opt ;;
  let '(_, profit, investment) := p in
  let '(percent_return, annualized_return) :=
    ranker_returns profit investment days_to_expiration in
  Ok (Ranked.mk (Cand.strike opt) (Cand.premium opt) (Cand.breakeven opt)
        profit percent_return annualized_return (Cand.option_data opt)).

Fixpoint rank_loop (strategy : string) (target_price : Q) (days_to_expiration : Z)
    (filtered_options : list Cand.t) : result (list Ranked.t) :=
  match filtered_options with
  | [] => Ok []
  | opt :: rest =>
      r <- rank_row strategy target_price days_to_expiration opt ;;
      rs <- rank_loop strategy target_price days_to_expiration rest ;;
      Ok (r :: rs)
  end.

Definition calculate_annualized_returns (filtered_options : list Cand.t) (strategy : string)
    (target_price : Q) (today expiration_date : Z) : result (list Ranked.t) :=
  let days_to_expiration := ranker_days today expiration_date in
  results <- rank_loop strategy target_price days_to_expiration filtered_options ;;
  Ok (list_sort Ranked.annualized_return true results).

(** The evaluator. *)
Definition calculate_option_value (strategy : string) (future_price : Q)
    (selected_data : Selected.t) (today expiration_date : Z) : result Report.t :=
  let current_price := Selected.stock_price selected_data in
  let days_to_expiration := evaluator_days today expiration_date in
  if (strategy =? "call")%string then
    strike <- lookup (Selected.call_strike selected_data) ;;
    call_option <- lookup (Selected.call_option selected_data) ;;
    let premium := Row.lastPrice call_option in
    let value := if Qgt_bool future_price strike then future_price - strike else 0 in
    let profit := value - premium in
    let percent_return := if Qgt_bool premium 0 then (profit / premium) * 100 else 0 in
    let annualized_return := annualize percent_return days_to_expiration in
    Ok (Report.mk strategy days_to_expiration future_price strike premium value
          profit percent_return annualized_return)
  else if (strategy =? "put")%string then
    strike <- lookup (Selected.put_strike selected_data) ;;
    put_option <- lookup (Selected.put_option selected_data) ;;
    let premium := Row.lastPrice put_option in
    let value := if Qlt_bool future_price strike then strike - future_price else 0 in
    let profit := value - premium in
    let percent_return := if Qgt_bool premium 0 then (profit / premium) * 100 else 0 in
    let annualized_return := annualize percent_return days_to_expiration in
    Ok (Report.mk strategy days_to_expiration future_price strike premium value
          profit percent_return annualized_return)
  else if (strategy =? "covered_call")%string then
    strike <- lookup (Selected.call_strike selected_data) ;;
    call_option <- lookup (Selected.call_option selected_data) ;;
    let premium := Row.lastPrice call_option in
    current <- number current_price ;;
    let stock_profit := future_price - current in
    let option_value := if Qgt_bool future_price strike then - (future_price - strike) else 0 in
    let profit := stock_profit + premium + option_value in
    let investment := current in
    ratio <- py_div profit investment ;;
    let percent_return := ratio * 100 in
    let annualized_return := annualize percent_return days_to_expiration in
    Ok (Report.mk strategy days_to_expiration future_price strike premium option_value
          profit percent_return annualized_return)
  else if (strategy =? "cash_secured_put")%string then
    strike <- lookup (Selected.put_strike selected_data) ;;
    put_option <- lookup (Selected.put_option selected_data) ;;
    let premium := Row.lastPrice put_option in
    let option_value := if Qlt_bool future_price strike then - (strike - future_price) else 0 in
    let profit := premium + option_value in
    let investment := strike in
    ratio <- py_div profit investment ;;
    let percent_return := ratio * 100 in
    let annualized_return := annualize percent_return days_to_expiration in
    Ok (Report.mk strategy days_to_expiration future_price strike premium option_value
          profit percent_return annualized_return)
  else Raise UnboundLocalError.

End Returns.

(** [main]: the [selected_data] built from the row the user picked. *)
Definition prepare_selected_data (selected_strategy : string) (stock_price : option Q)
    (option_choice : Ranked.t) : Selected.t :=
  let calls := (selected_strategy =? "call")%string
               || (selected_strategy =? "covered_call")%string in
  let puts := (selected_strategy =? "put")%string
              || (selected_strategy =? "cash_secured_put")%string in
  Selected.mk stock_price
    (if calls then Some (Ranked.strike option_choice) else None)
    (if calls then Some (Ranked.option_data option_choice) else None)
    (if puts then Some (Ranked.strike option_choice) else None)
    (if puts then Some (Ranked.option_data option_choice) else None).

(** A float power that is exact at whole exponents (a day count that divides
    365); it serves to run the model on concrete inputs. *)
Definition whole_pow (b e : Q) : Q := Qpower b (Qfloor e).

(** ** The specification's vocabulary *)

(** The closed enumeration of strategies and the string each one is in the
    code. *)
Inductive Strategy : Type :=
| LongCall
| LongPut
| CoveredCall
| CashSecuredPut.

Definition strategy_name (st : Strategy) : string :=
  match st with
  | LongCall => "call"
  | LongPut => "put"
  | CoveredCall => "covered_call"
  | CashSecuredPut => "cash_secured_put"
  end.

(** The cost column of the specification's table (strike [K], premium [P],
    entry price [S]). *)
Definition spec_cost (st : Strategy) (K P S : Q) : Q :=
  match st with
  | LongCall => 100 * P
  | LongPut => 100 * P
  | CoveredCall => 100 * (S - P)
  | CashSecuredPut => 100 * (K - P)
  end.

(** The breakeven column of the same table. *)
Definition spec_breakeven (st : Strategy) (K P S : Q) : Q :=
  match st with
  | LongCall => K + P
  | LongPut => K - P
  | CoveredCall => S - P
  | CashSecuredPut => K - P
  end.

(** The entry price as a number; only the covered call reads it. *)
Definition entry_price (stock_price : option Q) : Q :=
  match stock_price with
  | Some s => s
  | None => 0
  end.

(** [l1] is [l2] with some elements left out, order kept. *)
Inductive subseq {A : Type} : list A -> list A -> Prop :=
| subseq_nil : subseq [] []
| subseq_skip (x : A) (l1 l2 : list A) : subseq l1 l2 -> subseq l1 (x :: l2)
| subseq_keep (x : A) (l1 l2 : list A) : subseq l1 l2 -> subseq (x :: l1) (x :: l2).

(** The elements of [l] whose key is [k]: one class of ties. *)
Definition ties {A : Type} (key : A -> Q) (k : Q) (l : list A) : list A :=
  filter (fun a => Qeq_bool (key a) k) l.

Definition ascending {A : Type} (key : A -> Q) (x y : A) : Prop := key x <= key y.
Definition descending {A : Type} (key : A -> Q) (x y : A) : Prop := key y <= key x.

(** Breakeven admissibility: long calls and covered calls want the breakeven
    below the target, long puts and cash-secured puts above it; without a
    target every breakeven is admissible. *)
Definition wants_below (st : Strategy) : bool :=
  match st with
  | LongCall | CoveredCall => true
  | LongPut | CashSecuredPut => false
  end.

Definition breakeven_admissible (st : Strategy) (target : option Q) (breakeven : Q) : Prop :=
  match target with
  | None => True
  | Some t => if wants_below st then breakeven < t else t < breakeven
  end.

(** What the specification asks of a filtered candidate. *)
Definition filtered_candidate (st : Strategy) (investment_amount : Q)
    (stock_price target : option Q) (c : Cand.t) : Prop :=
  Cand.strike c = Row.strike (Cand.option_data c) /\
  Cand.premium c = Row.lastPrice (Cand.option_data c) /\
  Cand.cost c == spec_cost st (Cand.strike c) (Cand.premium c) (entry_price stock_price) /\
  Cand.breakeven c
    == spec_breakeven st (Cand.strike c) (Cand.premium c) (entry_price stock_price) /\
  Cand.cost c <= investment_amount /\
  Cand.remaining_budget c = investment_amount - Cand.cost c /\
  breakeven_admissible st target (Cand.breakeven c) /\
  Cand.stock_price c = None.

(** The order [list.sort(key, reverse)] establishes. *)
Definition in_order {A : Type} (key : A -> Q) (reverse : bool) (x y : A) : Prop :=
  if reverse then descending key x y else ascending key x y.

(** A result row keeps the identifying fields of its candidate. *)
Definition carries (c : Cand.t) (r : Ranked.t) : Prop :=
  Ranked.strike r = Cand.strike c /\
  Ranked.premium r = Cand.premium c /\
  Ranked.breakeven r = Cand.breakeven c /\
  Ranked.option_data r = Cand.option_data c.

(** * The rest of the program *)

(** ** The console

    A line typed at a prompt is kept as what the program's readers make of
    it: [.upper()], [.lower()], [.lower().strip()], [int(...)],
    [datetime.strptime(..., '%Y-%m-%d')] as an ordinal, and [parse_float].
    A reader that raises ValueError gives [None]. *)
Module Line.
Record t : Type := mk {
  upper : string;
  lower : string;
  lower_strip : string;
  as_int : option Z;
  as_date : option Z;
  as_float : option Q
}.
End Line.

(** How an interactive routine ends: it returns, [sys.exit(code)] is
    called, an exception escapes, or [input()] finds the input at its end. *)
Inductive outcome (A : Type) : Type :=
| Done (a : A)
| Exit (code : Z)
| Fault (e : exn)
| EndOfInput.

Arguments Done {A} a.
Arguments Exit {A} code.
Arguments Fault {A} e.
Arguments EndOfInput {A}.

(** A routine that reads: it takes the lines not yet read and gives back
    those it leaves. *)
Definition console (A : Type) : Type := list Line.t -> outcome (A * list Line.t).

(** A call that reads nothing. *)
Definition call {A : Type} (r : result A) : console A :=
  fun stdin =>
    match r with
    | Ok a => Done (a, stdin)
    | Raise e => Fault e
    end.

Definition sys_exit {A : Type} (code : Z) : console A :=
  fun _ => Exit code.

(** ** select_expiration *)

(** [min(range(len(keys)), key=lambda i: keys[i])]: the index of the first
    least key, with that key; [None] on an empty list, where [min] raises
    ValueError. *)
Fixpoint min_index (keys : list Z) : option (nat * Z) :=
  match keys with
  | [] => None
  | k :: ks =>
      match min_index ks with
      | None => Some (O, k)
      | Some (i, m) => if (k <=? m)%Z then Some (O, k) else Some (S i, m)
      end
  end.

(** The index of the expiration closest to [target_date]. *)
Definition closest_index (expirations : list Z) (target_date : Z) : option nat :=
  option_map fst (min_index (map (fun exp => Z.abs (exp - target_date)) expirations)).

(** The [while True] loop: a number picks from the list, a date picks the
    closest expiration, anything else asks again.  The expirations are the
    provider's date strings, taken as well-formed and kept as ordinals; an
    index is only used after the bounds test or out of [min(range(...))],
    so the default of [nth] is never read. *)
Fixpoint select_expiration (expirations : list Z) (stdin : list Line.t)
    : outcome (Z * list Line.t) :=
  match stdin with
  | [] => EndOfInput
  | choice :: rest =>
      match Line.as_int choice with
      | Some n =>
          let index := (n - 1)%Z in
          if (0 <=? index)%Z && (index <? Z.of_nat (List.length expirations))%Z then
            Done (nth (Z.to_nat index) expirations 0%Z, rest)
          else select_expiration expirations rest
      | None =>
          match Line.as_date choice with
          | Some target_date =>
              match closest_index expirations target_date with
              | Some closest => Done (nth closest expirations 0%Z, rest)
              | None => select_expiration expirations rest
              end
          | None => select_expiration expirations rest
          end
      end
  end.

(** ** display_filtered_options, display_top_returns *)

(** A row of [table_data], before formatting.  The sixth column is the
    remaining budget for long options and the return otherwise. *)
Module TableRow.
Record t : Type := mk {
  num : Z;
  strike : Q;
  premium : Q;
  breakeven : Q;
  cost : Q;
  sixth : Q;
  volume : option Z;
  open_int : option Z
}.
End TableRow.

Definition filtered_row (strategy : string) (i : Z) (opt : Cand.t) : result TableRow.t :=
  let volume := Row.volume (Cand.option_data opt) in
  let open_int := Row.openInterest (Cand.option_data opt) in
  if (strategy =? "call")%string || (strategy =? "put")%string then
    Ok (TableRow.mk (i + 1) (Cand.strike opt) (Cand.premium opt) (Cand.breakeven opt)
          (Cand.cost opt) (Cand.remaining_budget opt) volume open_int)
  else
    ratio <- (if (strategy =? "covered_call")%string
              then py_div (Cand.premium opt) (Cand.strike opt - Cand.premium opt)
              else py_div (Cand.premium opt) (Cand.strike opt)) ;;
    let return_pct := ratio * 100 in
    Ok (TableRow.mk (i + 1) (Cand.strike opt) (Cand.premium opt) (Cand.breakeven opt)
          (Cand.cost opt) return_pct volume open_int).

(** [for i, opt in enumerate(filtered_options)], from index [i]. *)
Fixpoint filtered_rows (strategy : string) (i : Z) (filtered_options : list Cand.t)
    : result (list TableRow.t) :=
  match filtered_options with
  | [] => Ok []
  | opt :: rest =>
      row <- filtered_row strategy i opt ;;
      rows <- filtered_rows strategy (i + 1) rest ;;
      Ok (row :: rows)
  end.

(** The table [display_filtered_options] prints; no table for no options. *)
Definition display_filtered_options (filtered_options : list Cand.t) (strategy : string)
    : result (list TableRow.t) :=
  filtered_rows strategy 0 filtered_options.

(** The table [display_top_returns] prints: the first
    [min(limit, len(options_by_return))] rows. *)
Definition display_top_returns (options_by_return : list Ranked.t) (limit : Z)
    : list Ranked.t :=
  let show_limit := Z.min limit (Z.of_nat (List.length options_by_return)) in
  firstn (Z.to_nat show_limit) options_by_return.

(** ** calculate_pnl *)

(** A printed line of the summary: its label with the amount after it (the
    two-decimal format and the words in brackets are left out), or its label
    with a word. *)
Inductive printed : Type :=
| Amount (label : string) (amount : Q)
| Words (label text : string).

(** [calculate_pnl], as the lines it prints.  ['stock_price'] is always a
    key of [selected_data], so the default of [.get('stock_price', 100)] is
    never taken; a covered call whose price is [None] fails when the price
    is formatted. *)
Definition calculate_pnl (strategy : string) (stock_price : option Q)
    (selected_data : Selected.t) : result (list printed) :=
  let stock_price :=
    match stock_price with
    | None => Selected.stock_price selected_data
    | Some s => Some s
    end in
  if (strategy =? "call")%string then
    strike <- lookup (Selected.call_strike selected_data) ;;
    call_option <- lookup (Selected.call_option selected_data) ;;
    let premium := Row.lastPrice call_option in
    Ok [Amount "Strike Price" strike;
        Amount "Premium Paid" premium;
        Amount "Breakeven Price" (strike + premium);
        Amount "Maximum Loss" premium;
        Words "Maximum Profit" "Unlimited"]
  else if (strategy =? "put")%string then
    strike <- lookup (Selected.put_strike selected_data) ;;
    put_option <- lookup (Selected.put_option selected_data) ;;
    let premium := Row.lastPrice put_option in
    Ok [Amount "Strike Price" strike;
        Amount "Premium Paid" premium;
        Amount "Breakeven Price" (strike - premium);
        Amount "Maximum Loss" premium;
        Amount "Maximum Profit" (strike - premium)]
  else if (strategy =? "covered_call")%string then
    strike <- lookup (Selected.call_strike selected_data) ;;
    call_option <- lookup (Selected.call_option selected_data) ;;
    let premium := Row.lastPrice call_option in
    current <- number stock_price ;;
    Ok [Amount "Current Stock Price" current;
        Amount "Strike Price" strike;
        Amount "Premium Received" premium;
        Amount "Maximum Profit" (strike - current + premium);
        Amount "Breakeven Price" (current - premium)]
  else if (strategy =? "cash_secured_put")%string then
    strike <- lookup (Selected.put_strike selected_data) ;;
    put_option <- lookup (Selected.put_option selected_data) ;;
    let premium := Row.lastPrice put_option in
    Ok [Amount "Strike Price" strike;
        Amount "Premium Received" premium;
        Amount "Maximum Profit" premium;
        Amount "Breakeven Price" (strike - premium);
        Amount "Maximum Loss" (strike - premium)]
  else Ok [].

(** ** main *)

(** The dict [strategies] of [main]. *)
Definition strategies : list (string * string) :=
  [("c", "call"); ("p", "put"); ("cc", "covered_call"); ("csp", "cash_secured_put")]%string.

Fixpoint dict_get (d : list (string * string)) (k : string) : option string :=
  match d with
  | [] => None
  | (k', v) :: d' => if (k =? k')%string then Some v else dict_get d' k
  end.

(** [while True: ... if strategy_choice in strategies: ... break] *)
Fixpoint select_strategy (stdin : list Line.t) : outcome (string * list Line.t) :=
  match stdin with
  | [] => EndOfInput
  | strategy_choice :: rest =>
      match dict_get strategies (Line.lower_strip strategy_choice) with
      | Some selected_strategy => Done (selected_strategy, rest)
      | None => select_strategy rest
      end
  end.

(** The [if]/[elif] chain of [main] that calls the filter: calls for a call
    or a covered call, puts for a put or a cash-secured put; a covered call
    without a stock price exits with 1. *)
Definition filter_for_strategy (calls puts : list Row.t) (selected_strategy : string)
    (investment_amount : Q) (stock_price : option Q) : console (list Cand.t) :=
  if (selected_strategy =? "call")%string then
    call (filter_options_by_investment calls selected_strategy investment_amount
            stock_price None)
  else if (selected_strategy =? "put")%string then
    call (filter_options_by_investment puts selected_strategy investment_amount
            stock_price None)
  else if (selected_strategy =? "covered_call")%string then
    match stock_price with
    | None => sys_exit 1
    | Some _ =>
        call (filter_options_by_investment calls selected_strategy investment_amount
                stock_price None)
    end
  else if (selected_strategy =? "cash_secured_put")%string then
    call (filter_options_by_investment puts selected_strategy investment_amount
            stock_price None)
  else call (Raise UnboundLocalError).


(** ** Sample data

    A stock at 50 with a call 55/2 and a put 40/1 selected. *)
Definition sample_call_data : Selected.t :=
  Selected.mk (Some 50) (Some 55) (Some (Row.mk 55 2 None None)) None None.

Definition sample_put_data : Selected.t :=
  Selected.mk (Some 50) None None (Some 40) (Some (Row.mk 40 1 None None)).

(** * Facts *)

(** ** Booleans of the source and the order of [Q] *)

Lemma Qlt_bool_iff (a b : Q) : Qlt_bool a b = true <-> a < b.
Proof.
  unfold Qlt_bool. rewrite negb_true_iff.
  split; intro H.
  - apply Qnot_le_lt. intro Hle. apply Qle_bool_iff in Hle. congruence.
  - destruct (Qle_bool b a) eqn:E; [|reflexivity].
    apply Qle_bool_iff in E. exfalso. apply (Qlt_not_le _ _ H E).
Qed.

Lemma Qlt_bool_false (a b : Q) : Qlt_bool a b = false <-> b <= a.
Proof.
  unfold Qlt_bool. rewrite negb_false_iff. apply Qle_bool_iff.
Qed.

Lemma Qgt_bool_iff (a b : Q) : Qgt_bool a b = true <-> b < a.
Proof. apply Qlt_bool_iff. Qed.

Lemma Qgt_bool_false (a b : Q) : Qgt_bool a b = false <-> a <= b.
Proof. apply Qlt_bool_false. Qed.

Lemma valid_strategy_name (st : Strategy) : valid_strategy (strategy_name st) = true.
Proof. destruct st; reflexivity. Qed.

Lemma valid_strategy_inv (s : string) :
  valid_strategy s = true -> exists st, s = strategy_name st.
Proof.
  unfold valid_strategy. rewrite !orb_true_iff, !String.eqb_eq.
  intros [[[H|H]|H]|H]; subst.
  - now exists LongCall.
  - now exists LongPut.
  - now exists CoveredCall.
  - now exists CashSecuredPut.
Qed.

(** ** The sort *)

Section SortFacts.
Context {A : Type}.
Variable key : A -> Q.
Variable reverse : bool.

Lemma goes_before_true (x y : A) :
  goes_before key reverse x y = true -> in_order key reverse x y.
Proof.
  unfold goes_before, in_order, descending, ascending.
  destruct reverse; apply Qle_bool_iff.
Qed.

Lemma goes_before_false (x y : A) :
  goes_before key reverse x y = false -> in_order key reverse y x /\ ~ key x == key y.
Proof.
  unfold goes_before, in_order, descending, ascending.
  destruct reverse; intro H.
  - assert (L : key x < key y) by (apply Qlt_bool_iff; unfold Qlt_bool; now rewrite H).
    split; [apply Qlt_le_weak; exact L | intro E; rewrite E in L; exact (Qlt_irrefl _ L)].
  - assert (L : key y < key x) by (apply Qlt_bool_iff; unfold Qlt_bool; now rewrite H).
    split; [apply Qlt_le_weak; exact L | intro E; rewrite E in L; exact (Qlt_irrefl _ L)].
Qed.

Lemma in_order_trans (x y z : A) :
  in_order key reverse x y -> in_order key reverse y z -> in_order key reverse x z.
Proof.
  unfold in_order, descending, ascending.
  destruct reverse; intros H1 H2; eapply Qle_trans; eassumption.
Qed.

Lemma insert_by_perm (x : A) (l : list A) :
  Permutation (insert_by key reverse x l) (x :: l).
Proof.
  induction l as [|y ys IH]; simpl.
  - apply Permutation_refl.
  - destruct (goes_before key reverse x y).
    + apply Permutation_refl.
    + eapply perm_trans; [apply perm_skip, IH | apply perm_swap].
Qed.

Lemma list_sort_perm (l : list A) : Permutation (list_sort key reverse l) l.
Proof.
  induction l as [|x xs IH]; simpl.
  - apply perm_nil.
  - eapply perm_trans; [apply insert_by_perm | apply perm_skip, IH].
Qed.

Lemma insert_by_hd (x y : A) (l : list A) :
  in_order key reverse y x -> HdRel (in_order key reverse) y l ->
  HdRel (in_order key reverse) y (insert_by key reverse x l).
Proof.
  intros Hyx Hl. destruct l as [|z zs]; simpl.
  - constructor. exact Hyx.
  - destruct (goes_before key reverse x z); constructor.
    + exact Hyx.
    + inversion Hl; assumption.
Qed.

Lemma insert_by_sorted (x : A) (l : list A) :
  Sorted (in_order key reverse) l -> Sorted (in_order key reverse) (insert_by key reverse x l).
Proof.
  induction l as [|y ys IH]; simpl; intro Hs.
  - repeat constructor.
  - destruct (goes_before key reverse x y) eqn:E.
    + constructor; [exact Hs | constructor; now apply goes_before_true].
    + inversion Hs as [|? ? Hys Hhd]; subst.
      constructor; [now apply IH|].
      apply insert_by_hd; [now apply goes_before_false | exact Hhd].
Qed.

Lemma list_sort_sorted (l : list A) :
  StronglySorted (in_order key reverse) (list_sort key reverse l).
Proof.
  apply Sorted_StronglySorted.
  - intros x y z. apply in_order_trans.
  - induction l as [|x xs IH]; simpl; [constructor | now apply insert_by_sorted].
Qed.

(** Stability: inserting [x] puts it in front of its class of ties. *)
Lemma insert_by_ties (k : Q) (x : A) (l : list A) :
  ties key k (insert_by key reverse x l) = ties key k (x :: l).
Proof.
  unfold ties.
  induction l as [|y ys IH]; [reflexivity|].
  cbn [insert_by]. destruct (goes_before key reverse x y) eqn:E; [reflexivity|].
  cbn [filter]. rewrite IH. cbn [filter].
  destruct (Qeq_bool (key x) k) eqn:Ex; [|reflexivity].
  destruct (Qeq_bool (key y) k) eqn:Ey; [|reflexivity].
  exfalso. apply goes_before_false in E. destruct E as [_ Hne]. apply Hne.
  apply Qeq_bool_iff in Ex. apply Qeq_bool_iff in Ey. rewrite Ex, Ey. reflexivity.
Qed.

Lemma list_sort_ties (k : Q) (l : list A) :
  ties key k (list_sort key reverse l) = ties key k l.
Proof.
  induction l as [|x xs IH]; [reflexivity|].
  cbn [list_sort fold_right]. rewrite insert_by_ties.
  unfold ties in *. cbn [filter]. fold (list_sort key reverse xs). now rewrite IH.
Qed.

End SortFacts.

(** ** The filter *)

Lemma meets_target_iff (st : Strategy) (target : option Q) (breakeven : Q) :
  meets_target target (wants_below st) breakeven = true
  <-> breakeven_admissible st target breakeven.
Proof.
  unfold meets_target, breakeven_admissible.
  destruct target as [t|]; [|tauto].
  destruct (wants_below st); [apply Qlt_bool_iff | apply Qgt_bool_iff].
Qed.

Lemma breakeven_admissible_compat (st : Strategy) (target : option Q) (a b : Q) :
  a == b -> breakeven_admissible st target a -> breakeven_admissible st target b.
Proof.
  unfold breakeven_admissible. intros E.
  destruct target as [t|]; [|tauto].
  destruct (wants_below st); now rewrite E.
Qed.

(** The [if]/[elif] chain computes the table's cost and breakeven. *)
Lemma cost_and_breakeven_table (st : Strategy) (stock_price target : option Q) (K P : Q) :
  (st = CoveredCall -> stock_price <> None) ->
  exists contract_cost breakeven,
    cost_and_breakeven (strategy_name st) stock_price target K P
      = Ok (contract_cost, breakeven, meets_target target (wants_below st) breakeven)
    /\ contract_cost == spec_cost st K P (entry_price stock_price)
    /\ breakeven == spec_breakeven st K P (entry_price stock_price).
Proof.
  intro Hs.
  destruct st; cbn.
  - do 2 eexists. split; [reflexivity|]. split; ring.
  - do 2 eexists. split; [reflexivity|]. split; ring.
  - destruct stock_price as [s|]; [|now exfalso; apply Hs].
    do 2 eexists. split; [reflexivity|]. cbn. split; ring.
  - do 2 eexists. split; [reflexivity|]. split; ring.
Qed.

(** One iteration keeps the row, as a candidate the specification accepts,
    exactly when its cost fits the budget and its breakeven is admissible. *)
Lemma filter_row_shape (st : Strategy) (investment_amount : Q)
    (stock_price target : option Q) (o : Row.t) :
  (st = CoveredCall -> stock_price <> None) ->
  (exists c,
      filter_row (strategy_name st) investment_amount stock_price target o = Ok [c]
      /\ Cand.option_data c = o
      /\ filtered_candidate st investment_amount stock_price target c)
  \/ (filter_row (strategy_name st) investment_amount stock_price target o = Ok []
      /\ ~ (spec_cost st (Row.strike o) (Row.lastPrice o) (entry_price stock_price)
              <= investment_amount
            /\ breakeven_admissible st target
                 (spec_breakeven st (Row.strike o) (Row.lastPrice o)
                    (entry_price stock_price)))).
Proof.
  intro Hs.
  destruct (cost_and_breakeven_table st stock_price target
              (Row.strike o) (Row.lastPrice o) Hs) as (cc & be & Hcb & Hcc & Hbe).
  unfold filter_row. rewrite Hcb. cbn [bind].
  destruct (Qle_bool cc investment_amount) eqn:Ec;
    destruct (meets_target target (wants_below st) be) eqn:Em; cbn [andb].
  - left. eexists. split; [reflexivity|]. split; [reflexivity|].
    unfold filtered_candidate; cbn.
    repeat split; try assumption.
    + now apply Qle_bool_iff.
    + now apply meets_target_iff.
  - right. split; [reflexivity|]. intros [_ Ha].
    apply (breakeven_admissible_compat st target _ be) in Ha; [|now symmetry].
    apply meets_target_iff in Ha. congruence.
  - right. split; [reflexivity|]. intros [Hc _].
    rewrite <- Hcc in Hc. apply Qle_bool_iff in Hc. congruence.
  - right. split; [reflexivity|]. intros [Hc _].
    rewrite <- Hcc in Hc. apply Qle_bool_iff in Hc. congruence.
Qed.

(** The loop returns, in input order, the candidates of the rows it keeps. *)
Lemma filter_loop_shape (st : Strategy) (investment_amount : Q)
    (stock_price target : option Q) (options : list Row.t) :
  (st = CoveredCall -> stock_price <> None) ->
  exists kept,
    filter_loop (strategy_name st) investment_amount stock_price target options = Ok kept
    /\ subseq (map Cand.option_data kept) options
    /\ Forall (filtered_candidate st investment_amount stock_price target) kept
    /\ (forall o, In o options ->
          spec_cost st (Row.strike o) (Row.lastPrice o) (entry_price stock_price)
            <= investment_amount ->
          breakeven_admissible st target
            (spec_breakeven st (Row.strike o) (Row.lastPrice o) (entry_price stock_price)) ->
          In o (map Cand.option_data kept)).
Proof.
  intro Hs.
  induction options as [|o rest IH].
  - exists []. cbn. repeat split; [constructor | constructor | intros o []].
  - destruct IH as (kept & Hloop & Hsub & Hall & Hin).
    cbn [filter_loop].
    destruct (filter_row_shape st investment_amount stock_price target o Hs)
      as [(c & Hrow & Hdata & Hgood) | (Hrow & Hout)];
      rewrite Hrow, Hloop; cbn [bind app].
    + exists (c :: kept). split; [reflexivity|]. cbn [map]. rewrite Hdata.
      split; [now apply subseq_keep|].
      split; [now constructor|].
      intros o' [<-|Ho'] Hc Ha; [now left | right; now apply Hin].
    + exists kept. split; [reflexivity|].
      split; [now apply subseq_skip|].
      split; [assumption|].
      intros o' [<-|Ho'] Hc Ha; [exfalso; apply Hout; now split | now apply Hin].
Qed.

Lemma Forall_perm {A : Type} (P : A -> Prop) (l l' : list A) :
  Permutation l l' -> Forall P l -> Forall P l'.
Proof.
  intros Hp Hl. apply Forall_forall. intros x Hx.
  rewrite Forall_forall in Hl. apply Hl.
  apply Permutation_in with (l := l'); [now apply Permutation_sym | exact Hx].
Qed.

(** The filter returns the stable ascending sort of what the loop kept. *)
Lemma filter_shape (st : Strategy) (investment_amount : Q)
    (stock_price target : option Q) (options : list Row.t) :
  (st = CoveredCall -> stock_price <> None) ->
  exists kept out,
    filter_loop (strategy_name st) investment_amount stock_price target options = Ok kept
    /\ filter_options_by_investment options (strategy_name st) investment_amount
         stock_price target = Ok out
    /\ out = list_sort Cand.strike false kept
    /\ subseq (map Cand.option_data kept) options
    /\ Permutation out kept
    /\ Forall (filtered_candidate st investment_amount stock_price target) out
    /\ (forall o, In o options ->
          spec_cost st (Row.strike o) (Row.lastPrice o) (entry_price stock_price)
            <= investment_amount ->
          breakeven_admissible st target
            (spec_breakeven st (Row.strike o) (Row.lastPrice o) (entry_price stock_price)) ->
          In o (map Cand.option_data out)).
Proof.
  intro Hs.
  destruct (filter_loop_shape st investment_amount stock_price target options Hs)
    as (kept & Hloop & Hsub & Hall & Hin).
  exists kept, (list_sort Cand.strike false kept).
  assert (Hp : Permutation (list_sort Cand.strike false kept) kept)
    by apply list_sort_perm.
  unfold filter_options_by_investment. rewrite Hloop. cbn [bind].
  repeat split; try assumption; try reflexivity.
  - apply Forall_perm with (l := kept); [now apply Permutation_sym | exact Hall].
  - intros o Ho Hc Ha.
    apply Permutation_in with (l := map Cand.option_data kept).
    + apply Permutation_map, Permutation_sym, Hp.
    + now apply Hin.
Qed.

Lemma cost_and_breakeven_unknown (s : string) (stock_price target : option Q) (K P : Q) :
  valid_strategy s = false ->
  cost_and_breakeven s stock_price target K P = Raise UnboundLocalError.
Proof.
  unfold valid_strategy, cost_and_breakeven. rewrite !orb_false_iff.
  intros [[[-> ->] ->] ->]. reflexivity.
Qed.

(** C2 (as the code has it): there is no InvalidStrategy error.  With a
    strategy string outside the four, the filter returns the empty result on
    an empty chain, and on a non-empty chain it fails at the first row with
    Python's unbound-local error. *)
Theorem filter_unknown_strategy (s : string) (options : list Row.t)
    (investment_amount : Q) (stock_price target : option Q) :
  valid_strategy s = false ->
  filter_options_by_investment options s investment_amount stock_price target
  = match options with
    | [] => Ok []
    | _ :: _ => Raise UnboundLocalError
    end.
Proof.
  intro Hs. unfold filter_options_by_investment.
  destruct options as [|o rest]; [reflexivity|].
  cbn [filter_loop]. unfold filter_row.
  now rewrite (cost_and_breakeven_unknown s _ _ _ _ Hs).
Qed.

Lemma filter_unknown_strategy_witness :
  valid_strategy "straddle" = false
  /\ filter_options_by_investment [Row.mk 100 5 None None] "straddle" 1000 None None
     = Raise UnboundLocalError.
Proof.
  split; [reflexivity|].
  apply (filter_unknown_strategy "straddle" [Row.mk 100 5 None None] 1000 None None).
  reflexivity.
Defined.

(** C2 as stated fails: on an empty chain an unknown strategy is not
    rejected, the filter returns the empty result. *)
Lemma filter_unknown_strategy_not_rejected :
  ~ (forall (s : string) (options : list Row.t) (investment_amount : Q)
            (stock_price target : option Q),
        valid_strategy s = false ->
        exists e,
          filter_options_by_investment options s investment_amount stock_price target
          = Raise e).
Proof.
  intro H.
  destruct (H "straddle"%string [] 1000 None None eq_refl) as [e He].
  discriminate He.
Qed.

(** C5: the filter's cost and breakeven are those of the table, for the row
    it is computing and for every candidate it returns; the covered call's
    cost is 100(S - P) and its breakeven S - P as the table has them. *)
Theorem filter_cost_breakeven_table (st : Strategy) (options : list Row.t)
    (investment_amount : Q) (stock_price target : option Q) (K P : Q) :
  (st = CoveredCall -> stock_price <> None) ->
  (exists contract_cost breakeven meets,
      cost_and_breakeven (strategy_name st) stock_price target K P
      = Ok (contract_cost, breakeven, meets)
      /\ contract_cost == spec_cost st K P (entry_price stock_price)
      /\ breakeven == spec_breakeven st K P (entry_price stock_price))
  /\ exists out,
      filter_options_by_investment options (strategy_name st) investment_amount
        stock_price target = Ok out
      /\ forall c, In c out ->
           Cand.strike c = Row.strike (Cand.option_data c)
           /\ Cand.premium c = Row.lastPrice (Cand.option_data c)
           /\ Cand.cost c
              == spec_cost st (Cand.strike c) (Cand.premium c) (entry_price stock_price)
           /\ Cand.breakeven c
              == spec_breakeven st (Cand.strike c) (Cand.premium c)
                   (entry_price stock_price).
Proof.
  intro Hs. split.
  - destruct (cost_and_breakeven_table st stock_price target K P Hs)
      as (cc & be & Hcb & Hcc & Hbe).
    now exists cc, be, (meets_target target (wants_below st) be).
  - destruct (filter_shape st investment_amount stock_price target options Hs)
      as (kept & out & _ & Hf & _ & _ & _ & Hall & _).
    rewrite Forall_forall in Hall.
    exists out. split; [exact Hf|].
    intros c Hc. destruct (Hall c Hc) as (H1 & H2 & H3 & H4 & _). now repeat split.
Qed.

(** C9: every candidate the filter returns has
    remaining_budget = investment amount - cost, which is not negative. *)
Theorem filter_remaining_budget (st : Strategy) (options : list Row.t)
    (investment_amount : Q) (stock_price target : option Q) :
  (st = CoveredCall -> stock_price <> None) ->
  exists out,
    filter_options_by_investment options (strategy_name st) investment_amount
      stock_price target = Ok out
    /\ forall c, In c out ->
         Cand.remaining_budget c == investment_amount - Cand.cost c
         /\ 0 <= Cand.remaining_budget c.
Proof.
  intro Hs.
  destruct (filter_shape st investment_amount stock_price target options Hs)
    as (kept & out & _ & Hf & _ & _ & _ & Hall & _).
  rewrite Forall_forall in Hall.
  exists out. split; [exact Hf|].
  intros c Hc. destruct (Hall c Hc) as (_ & _ & _ & _ & Hle & Hrem & _).
  rewrite Hrem. split; [reflexivity|]. lra.
Qed.

(** ** Days to expiration *)

Lemma evaluator_days_ranker_days (today exp_date : Z) :
  evaluator_days today exp_date = ranker_days today exp_date.
Proof.
  unfold evaluator_days, ranker_days.
  destruct (Z.leb_spec (exp_date - today) 0); lia.
Qed.

(** C8: in the ranker and in the evaluator days_to_expiration is the
    difference of the two dates when the expiration date is after the
    evaluation date and 1 otherwise; it is at least 1, so the divisor of
    365 / days_to_expiration is never zero. *)
Theorem days_to_expiration_at_least_one (today exp_date : Z) :
  ranker_days today exp_date
    = (if (exp_date <=? today)%Z then 1 else exp_date - today)%Z
  /\ evaluator_days today exp_date
    = (if (exp_date <=? today)%Z then 1 else exp_date - today)%Z
  /\ (1 <= ranker_days today exp_date)%Z
  /\ (1 <= evaluator_days today exp_date)%Z
  /\ ~ inject_Z (ranker_days today exp_date) == 0
  /\ ~ inject_Z (evaluator_days today exp_date) == 0.
Proof.
  rewrite evaluator_days_ranker_days. unfold ranker_days.
  assert (H : (1 <= Z.max 1 (exp_date - today))%Z) by lia.
  assert (N : ~ inject_Z (Z.max 1 (exp_date - today)) == 0).
  { unfold Qeq. cbn. lia. }
  repeat split; try assumption;
    destruct (Z.leb_spec exp_date today); lia.
Qed.

(** ** The ranker *)

Section ReturnFacts.
Variable fpow : Q -> Q -> Q.

Lemma ranker_payoff_ok (st : Strategy) (target_price : Q) (c : Cand.t) :
  exists option_value profit investment,
    ranker_payoff (strategy_name st) target_price c
    = Ok (option_value, profit, investment).
Proof. destruct st; cbn; do 3 eexists; reflexivity. Qed.

Lemma rank_row_ok (st : Strategy) (target_price : Q) (days : Z) (c : Cand.t) :
  exists r, rank_row fpow (strategy_name st) target_price days c = Ok r /\ carries c r.
Proof.
  destruct (ranker_payoff_ok st target_price c) as (v & p & i & H).
  unfold rank_row. rewrite H. cbn [bind].
  destruct (ranker_returns fpow p i days) as [pr ar].
  eexists. split; [reflexivity|]. now repeat split.
Qed.

Lemma rank_loop_shape (st : Strategy) (target_price : Q) (days : Z) (cands : list Cand.t) :
  exists results,
    rank_loop fpow (strategy_name st) target_price days cands = Ok results
    /\ Forall2 (fun c r => rank_row fpow (strategy_name st) target_price days c = Ok r
                           /\ carries c r) cands results.
Proof.
  induction cands as [|c rest IH].
  - exists []. split; [reflexivity | constructor].
  - destruct IH as (rs & Hloop & Hall).
    destruct (rank_row_ok st target_price days c) as (r & Hr & Hc).
    exists (r :: rs). cbn [rank_loop]. rewrite Hr, Hloop.
    split; [reflexivity | constructor; [now split | exact Hall]].
Qed.

Lemma carries_option_data (P : Cand.t -> Ranked.t -> Prop) (cands : list Cand.t)
    (results : list Ranked.t) :
  Forall2 (fun c r => P c r /\ carries c r) cands results ->
  map Ranked.option_data results = map Cand.option_data cands.
Proof.
  induction 1 as [|c r cs rs [_ (_ & _ & _ & Hd)] _ IH]; [reflexivity|].
  cbn. now rewrite Hd, IH.
Qed.

Lemma subseq_refl {A : Type} (l : list A) : subseq l l.
Proof. induction l; [constructor | now apply subseq_keep]. Qed.

Lemma subseq_map_filter {A B : Type} (f : A -> B) (p : A -> bool) (l : list A) :
  subseq (map f (filter p l)) (map f l).
Proof.
  induction l as [|x xs IH]; cbn; [constructor|].
  destruct (p x); cbn; [now apply subseq_keep | now apply subseq_skip].
Qed.

(** The ranker's guard: a base that is zero or negative gives 0 and 0. *)
Lemma ranker_degenerate_base (profit investment : Q) (days : Z) :
  investment <= 0 -> ranker_returns fpow profit investment days = (0, 0).
Proof.
  intro H. unfold ranker_returns.
  now rewrite (proj2 (Qgt_bool_false investment 0) H).
Qed.



End ReturnFacts.

(** ** The worked examples *)

(** C7: the three worked examples, in the ranker (its locals [option_value],
    [profit], [investment] and the row it appends) and in the evaluator.
    Long call 100/5 at 120: value 20, profit 15, return 300%.
    Long put 50/2 at 60: value 0, profit -2, return -100%.
    Cash-secured put 40/1 at 35: value -5, profit -4, base 40, return -10%. *)
Theorem worked_examples (fpow : Q -> Q -> Q) (days today exp_date : Z)
    (breakeven cost remaining : Q) (row : Row.t) (volume interest : option Z)
    (price : option Q) :
  (exists v p i r,
      ranker_payoff "call" 120 (Cand.mk 100 5 breakeven cost remaining row price)
      = Ok (v, p, i)
      /\ rank_row fpow "call" 120 days (Cand.mk 100 5 breakeven cost remaining row price)
         = Ok r
      /\ v == 20 /\ p == 15 /\ Ranked.profit r == 15
      /\ Ranked.percent_return r == 300)
  /\ (exists v p i r,
      ranker_payoff "put" 60 (Cand.mk 50 2 breakeven cost remaining row price)
      = Ok (v, p, i)
      /\ rank_row fpow "put" 60 days (Cand.mk 50 2 breakeven cost remaining row price)
         = Ok r
      /\ v == 0 /\ p == -2 /\ Ranked.profit r == -2
      /\ Ranked.percent_return r == -100)
  /\ (exists v p i r,
      ranker_payoff "cash_secured_put" 35
        (Cand.mk 40 1 breakeven cost remaining row price)
      = Ok (v, p, i)
      /\ rank_row fpow "cash_secured_put" 35 days
           (Cand.mk 40 1 breakeven cost remaining row price)
         = Ok r
      /\ v == -5 /\ p == -4 /\ i == 40 /\ Ranked.profit r == -4
      /\ Ranked.percent_return r == -10)
  /\ (exists rep,
      calculate_option_value fpow "call" 120
        (Selected.mk price (Some 100) (Some (Row.mk 100 5 volume interest)) None None)
        today exp_date = Ok rep
      /\ Report.value_at_expiration rep == 20 /\ Report.profit rep == 15
      /\ Report.percent_return rep == 300)
  /\ (exists rep,
      calculate_option_value fpow "put" 60
        (Selected.mk price None None (Some 50) (Some (Row.mk 50 2 volume interest)))
        today exp_date = Ok rep
      /\ Report.value_at_expiration rep == 0 /\ Report.profit rep == -2
      /\ Report.percent_return rep == -100)
  /\ (exists rep,
      calculate_option_value fpow "cash_secured_put" 35
        (Selected.mk price None None (Some 40) (Some (Row.mk 40 1 volume interest)))
        today exp_date = Ok rep
      /\ Report.value_at_expiration rep == -5 /\ Report.profit rep == -4
      /\ Report.percent_return rep == -10).
Proof.
  repeat split.
  - do 4 eexists. split; [reflexivity|]. split; [reflexivity|]. now repeat split.
  - do 4 eexists. split; [reflexivity|]. split; [reflexivity|]. now repeat split.
  - do 4 eexists. split; [reflexivity|]. split; [reflexivity|]. now repeat split.
  - eexists. split; [reflexivity|]. now repeat split.
  - eexists. split; [reflexivity|]. now repeat split.
  - eexists. split; [reflexivity|]. now repeat split.
Qed.

(** ** Ranker against evaluator *)

Section Agreement.
Variable fpow : Q -> Q -> Q.
Hypothesis fpow_one : forall b e, b == 1 -> fpow b e == 1.

Lemma annualize_zero (days : Z) : annualize fpow 0 days == 0.
Proof.
  unfold annualize. rewrite fpow_one; [ring | reflexivity].
Qed.

(** The evaluator's guard on the premium of a long option. *)
Lemma evaluator_long_degenerate (st : Strategy) (future_price : Q)
    (selected_data : Selected.t) (today exp_date : Z) (rep : Report.t) :
  st = LongCall \/ st = LongPut ->
  calculate_option_value fpow (strategy_name st) future_price selected_data
    today exp_date = Ok rep ->
  Report.premium rep <= 0 ->
  Report.percent_return rep = 0 /\ Report.annualized_return rep == 0.
Proof.
  intros [-> | ->]; cbn; unfold lookup.
  - destruct (Selected.call_strike selected_data); [|discriminate].
    destruct (Selected.call_option selected_data); [|discriminate].
    cbn. intros [= <-]. cbn. intro Hp.
    rewrite (proj2 (Qgt_bool_false _ 0) Hp). split; [reflexivity | apply annualize_zero].
  - destruct (Selected.put_strike selected_data); [|discriminate].
    destruct (Selected.put_option selected_data); [|discriminate].
    cbn. intros [= <-]. cbn. intro Hp.
    rewrite (proj2 (Qgt_bool_false _ 0) Hp). split; [reflexivity | apply annualize_zero].
Qed.

(** For a long call, a long put and a cash-secured put on a positive strike,
    the evaluator recomputes what the ranker computed for the same
    candidate. *)
Lemma ranker_evaluator_agree (st : Strategy) (investment_amount : Q)
    (stock_price target : option Q) (c : Cand.t) (target_price : Q)
    (today exp_date : Z) :
  st <> CoveredCall ->
  (st = CashSecuredPut -> 0 < Cand.strike c) ->
  filtered_candidate st investment_amount stock_price target c ->
  exists r rep,
    rank_row fpow (strategy_name st) target_price (ranker_days today exp_date) c = Ok r
    /\ calculate_option_value fpow (strategy_name st) target_price
         (prepare_selected_data (strategy_name st) stock_price r) today exp_date
       = Ok rep
    /\ Report.profit rep = Ranked.profit r
    /\ Report.percent_return rep == Ranked.percent_return r
    /\ Report.annualized_return rep == Ranked.annualized_return r.
Proof.
  intros Hcc Hpos (_ & Hprem & _).
  unfold rank_row, ranker_returns.
  destruct st; [| |congruence|]; cbn; rewrite evaluator_days_ranker_days.
  - destruct (Qgt_bool (Cand.premium c) 0) eqn:E; cbn;
      do 2 eexists; (split; [reflexivity|]); cbn; rewrite <- Hprem, E;
      (split; [reflexivity|]); cbn.
    + now repeat split.
    + split; [reflexivity|]. split; [reflexivity | apply annualize_zero].
  - destruct (Qgt_bool (Cand.premium c) 0) eqn:E; cbn;
      do 2 eexists; (split; [reflexivity|]); cbn; rewrite <- Hprem, E;
      (split; [reflexivity|]); cbn.
    + now repeat split.
    + split; [reflexivity|]. split; [reflexivity | apply annualize_zero].
  - specialize (Hpos eq_refl).
    assert (Hz : Qeq_bool (Cand.strike c) 0 = false).
    { destruct (Qeq_bool (Cand.strike c) 0) eqn:E; [|reflexivity].
      apply Qeq_bool_iff in E. rewrite E in Hpos. now apply Qlt_irrefl in Hpos. }
    rewrite (proj2 (Qgt_bool_iff _ _) Hpos).
    do 2 eexists. (split; [reflexivity|]). cbn. unfold py_div.
    rewrite <- Hprem, Hz. cbn.
    split; [reflexivity|]. now repeat split.
Qed.

End Agreement.

(** C1 (the covered call breaks it): the filter never stores ['stock_price']
    in a candidate, so the ranker's [opt.get('stock_price', strike)] takes
    the strike as the entry price, while the evaluator takes the real one.
    Stock at 50, call 55/2, target price 60: the ranker reports profit 2 and
    return 40/11 %, the evaluator profit 7 and return 14 %. *)
Theorem covered_call_ranker_evaluator_differ (fpow : Q -> Q -> Q) (today exp_date : Z) :
  exists c r rep,
    filter_options_by_investment [Row.mk 55 2 None None] "covered_call" 10000
      (Some 50) None = Ok [c]
    /\ calculate_annualized_returns fpow [c] "covered_call" 60 today exp_date = Ok [r]
    /\ calculate_option_value fpow "covered_call" 60
         (prepare_selected_data "covered_call" (Some 50) r) today exp_date = Ok rep
    /\ Ranked.profit r == 2 /\ Report.profit rep == 7
    /\ Ranked.percent_return r == 40 # 11 /\ Report.percent_return rep == 14
    /\ ~ Report.profit rep == Ranked.profit r
    /\ ~ Report.percent_return rep == Ranked.percent_return r.
Proof.
  do 3 eexists. do 3 (split; [reflexivity|]). cbn.
  repeat split; try reflexivity; intro H; discriminate H.
Qed.

(** C3 (the evaluator breaks it): its covered-call and cash-secured-put
    branches divide by the base without the guard the ranker has.  With an
    entry price of 0 the covered call raises; the ranker, given the same
    numbers, reports 0 and 0. *)
Theorem evaluator_covered_call_zero_base (fpow : Q -> Q -> Q) (today exp_date : Z) :
  calculate_option_value fpow "covered_call" 120
    (Selected.mk (Some 0) (Some 100) (Some (Row.mk 100 5 None None)) None None)
    today exp_date = Raise ZeroDivisionError
  /\ exists r,
      rank_row fpow "covered_call" 120 (ranker_days today exp_date)
        (Cand.mk 100 5 (-5) (-500) 500 (Row.mk 100 5 None None) (Some 0)) = Ok r
      /\ Ranked.percent_return r = 0 /\ Ranked.annualized_return r = 0.
Proof.
  split; [reflexivity|].
  eexists. split; [reflexivity|]. split; reflexivity.
Qed.

(** ** The theorems at concrete inputs *)

(** A covered call 55/2 on a stock at 50: cost 4800, breakeven 48. *)
Lemma filter_cost_breakeven_table_witness :
  (CoveredCall = CoveredCall -> Some 50 <> None)
  /\ (exists contract_cost breakeven meets,
        cost_and_breakeven (strategy_name CoveredCall) (Some 50) None 55 2
        = Ok (contract_cost, breakeven, meets)
        /\ contract_cost == spec_cost CoveredCall 55 2 (entry_price (Some 50))
        /\ breakeven == spec_breakeven CoveredCall 55 2 (entry_price (Some 50)))
  /\ exists out,
      filter_options_by_investment [Row.mk 55 2 None None]
        (strategy_name CoveredCall) 10000 (Some 50) None = Ok out
      /\ forall c, In c out ->
           Cand.strike c = Row.strike (Cand.option_data c)
           /\ Cand.premium c = Row.lastPrice (Cand.option_data c)
           /\ Cand.cost c
              == spec_cost CoveredCall (Cand.strike c) (Cand.premium c)
                   (entry_price (Some 50))
           /\ Cand.breakeven c
              == spec_breakeven CoveredCall (Cand.strike c) (Cand.premium c)
                   (entry_price (Some 50)).
Proof.
  assert (H : CoveredCall = CoveredCall -> Some 50 <> None) by discriminate.
  split; [exact H|].
  exact (filter_cost_breakeven_table CoveredCall [Row.mk 55 2 None None] 10000
           (Some 50) None 55 2 H).
Defined.

(** A cash-secured put 40/1 with 5000 of collateral. *)
Lemma filter_remaining_budget_witness :
  (CashSecuredPut = CoveredCall -> @None Q <> None)
  /\ exists out,
      filter_options_by_investment [Row.mk 40 1 None None]
        (strategy_name CashSecuredPut) 5000 None None = Ok out
      /\ forall c, In c out ->
           Cand.remaining_budget c == 5000 - Cand.cost c
           /\ 0 <= Cand.remaining_budget c.
Proof.
  assert (H : CashSecuredPut = CoveredCall -> @None Q <> None) by discriminate.
  split; [exact H|].
  exact (filter_remaining_budget CashSecuredPut [Row.mk 40 1 None None] 5000
           None None H).
Defined.


(** [whole_pow] is a power in the sense the agreement lemmas need. *)
Lemma whole_pow_one (b e : Q) : b == 1 -> whole_pow b e == 1.
Proof.
  intro H. unfold whole_pow. rewrite H. apply Qpower_1.
Qed.

(** * More of the program *)

(** ** The filter: budgets and the missing stock price *)

Lemma subseq_In {A : Type} (l1 l2 : list A) (x : A) :
  subseq l1 l2 -> In x l1 -> In x l2.
Proof.
  induction 1 as [|y l1 l2 _ IH|y l1 l2 _ IH]; intro Hx.
  - exact Hx.
  - right. now apply IH.
  - destruct Hx as [->|Hx]; [now left | right; now apply IH].
Qed.

(** A returned candidate comes from a row of the chain and meets the
    specification's conditions there. *)
Lemma filter_output_row (st : Strategy) (investment_amount : Q)
    (stock_price target : option Q) (options : list Row.t) (out : list Cand.t)
    (c : Cand.t) :
  (st = CoveredCall -> stock_price <> None) ->
  filter_options_by_investment options (strategy_name st) investment_amount
    stock_price target = Ok out ->
  In c out ->
  In (Cand.option_data c) options
  /\ filtered_candidate st investment_amount stock_price target c.
Proof.
  intros Hs Hf Hc.
  destruct (filter_shape st investment_amount stock_price target options Hs)
    as (kept & out' & _ & Hf' & _ & Hsub & Hp & Hall & _).
  rewrite Hf in Hf'. injection Hf' as <-.
  rewrite Forall_forall in Hall. split; [|now apply Hall].
  apply (subseq_In _ _ _ Hsub). apply in_map.
  apply Permutation_in with (l := out); assumption.
Qed.





(** A larger budget loses no contract: whatever is returned for a budget is
    returned for every budget above it. *)
Theorem filter_budget_monotone (st : Strategy) (options : list Row.t)
    (low high : Q) (stock_price target : option Q) (out_low out_high : list Cand.t) :
  (st = CoveredCall -> stock_price <> None) ->
  low <= high ->
  filter_options_by_investment options (strategy_name st) low stock_price target
    = Ok out_low ->
  filter_options_by_investment options (strategy_name st) high stock_price target
    = Ok out_high ->
  incl (map Cand.option_data out_low) (map Cand.option_data out_high).
Proof.
  intros Hs Hle Hlow Hhigh o Ho.
  apply in_map_iff in Ho. destruct Ho as (c & <- & Hc).
  destruct (filter_output_row st _ _ _ _ _ c Hs Hlow Hc)
    as (Hin & Hk & Hp & Hcost & Hbe & Hfit & _ & Hadm & _).
  destruct (filter_shape st high stock_price target options Hs)
    as (kept & out & _ & Hf & _ & _ & _ & _ & Hall).
  rewrite Hhigh in Hf. injection Hf as <-.
  apply Hall; [exact Hin | |].
  - rewrite <- Hk, <- Hp, <- Hcost. eapply Qle_trans; eassumption.
  - rewrite <- Hk, <- Hp.
    apply (breakeven_admissible_compat st target (Cand.breakeven c)); assumption.
Qed.

Lemma filter_budget_monotone_witness :
  (LongCall = CoveredCall -> @None Q <> None)
  /\ 300 <= 1000
  /\ filter_options_by_investment [Row.mk 100 5 None None; Row.mk 55 2 None None]
       (strategy_name LongCall) 300 None None
     = Ok [Cand.mk 55 2 57 200 100 (Row.mk 55 2 None None) None]
  /\ filter_options_by_investment [Row.mk 100 5 None None; Row.mk 55 2 None None]
       (strategy_name LongCall) 1000 None None
     = Ok [Cand.mk 55 2 57 200 800 (Row.mk 55 2 None None) None;
           Cand.mk 100 5 105 500 500 (Row.mk 100 5 None None) None]
  /\ incl
       (map Cand.option_data
          [Cand.mk 55 2 57 200 100 (Row.mk 55 2 None None) None])
       (map Cand.option_data
          [Cand.mk 55 2 57 200 800 (Row.mk 55 2 None None) None;
           Cand.mk 100 5 105 500 500 (Row.mk 100 5 None None) None]).
Proof.
  assert (H1 : LongCall = CoveredCall -> @None Q <> None) by discriminate.
  assert (H2 : 300 <= 1000) by discriminate.
  split; [exact H1|]. split; [exact H2|].
  split; [reflexivity|]. split; [reflexivity|].
  exact (filter_budget_monotone LongCall
           [Row.mk 100 5 None None; Row.mk 55 2 None None] 300 1000 None None
           _ _ H1 H2 eq_refl eq_refl).
Defined.

(** A covered call without a stock price is not rejected by the filter: an
    empty chain gives the empty list, a non-empty one fails at the first row
    with a TypeError. *)
Theorem filter_covered_call_without_price (options : list Row.t)
    (investment_amount : Q) (target : option Q) :
  filter_options_by_investment options "covered_call" investment_amount None target
  = match options with
    | [] => Ok []
    | _ :: _ => Raise TypeError
    end.
Proof. destruct options; reflexivity. Qed.

(** ** The ranker: unknown strategies, the power, the target price *)

Lemma ranker_payoff_unknown (s : string) (target_price : Q) (c : Cand.t) :
  valid_strategy s = false -> ranker_payoff s target_price c = Raise UnboundLocalError.
Proof.
  unfold valid_strategy, ranker_payoff. rewrite !orb_false_iff.
  intros [[[-> ->] ->] ->]. reflexivity.
Qed.

(** With a strategy outside the four the ranker returns the empty list for
    no candidates and fails with an unbound-local error otherwise. *)
Theorem ranker_unknown_strategy (fpow : Q -> Q -> Q) (s : string)
    (filtered_options : list Cand.t) (target_price : Q) (today exp_date : Z) :
  valid_strategy s = false ->
  calculate_annualized_returns fpow filtered_options s target_price today exp_date
  = match filtered_options with
    | [] => Ok []
    | _ :: _ => Raise UnboundLocalError
    end.
Proof.
  intro Hs. unfold calculate_annualized_returns.
  destruct filtered_options as [|c rest]; [reflexivity|].
  cbn [rank_loop]. unfold rank_row.
  now rewrite (ranker_payoff_unknown s _ _ Hs).
Qed.

Lemma ranker_unknown_strategy_witness :
  valid_strategy "straddle" = false
  /\ calculate_annualized_returns whole_pow
       [Cand.mk 100 5 105 500 0 (Row.mk 100 5 None None) None] "straddle" 120 0 30
     = Raise UnboundLocalError.
Proof.
  split; [reflexivity|].
  exact (ranker_unknown_strategy whole_pow "straddle"
           [Cand.mk 100 5 105 500 0 (Row.mk 100 5 None None) None] 120 0 30 eq_refl).
Defined.

Section RankerRows.
Variable fpow : Q -> Q -> Q.

Lemma rank_loop_rows (s : string) (target_price : Q) (days : Z)
    (cands : list Cand.t) (results : list Ranked.t) :
  rank_loop fpow s target_price days cands = Ok results ->
  Forall2 (fun c r => rank_row fpow s target_price days c = Ok r) cands results.
Proof.
  revert results. induction cands as [|c rest IH]; intros results; cbn [rank_loop].
  - intros [= <-]. constructor.
  - destruct (rank_row fpow s target_price days c) as [r|e] eqn:Er; [|discriminate].
    cbn [bind].
    destruct (rank_loop fpow s target_price days rest) as [rs|e]; [|discriminate].
    cbn [bind]. intros [= <-]. constructor; [exact Er | now apply IH].
Qed.

(** Every row the ranker returns is the row computed for one of the
    candidates. *)
Lemma ranker_rows (s : string) (target_price : Q) (today exp_date : Z)
    (cands : list Cand.t) (out : list Ranked.t) (r : Ranked.t) :
  calculate_annualized_returns fpow cands s target_price today exp_date = Ok out ->
  In r out ->
  exists c, In c cands
            /\ rank_row fpow s target_price (ranker_days today exp_date) c = Ok r.
Proof.
  unfold calculate_annualized_returns.
  destruct (rank_loop fpow s target_price (ranker_days today exp_date) cands)
    as [results|e] eqn:El; [|discriminate].
  cbn [bind]. intros [= <-] Hr.
  apply (Permutation_in _ (list_sort_perm Ranked.annualized_return true results)) in Hr.
  apply rank_loop_rows in El.
  clear - El Hr. induction El as [|c r' cs rs Hrow _ IH]; [destruct Hr|].
  destruct Hr as [<-|Hr].
  - exists c. split; [now left | exact Hrow].
  - destruct (IH Hr) as (c' & Hc' & Hrow'). exists c'. split; [now right | exact Hrow'].
Qed.

Lemma rank_row_inv (s : string) (target_price : Q) (days : Z) (c : Cand.t)
    (r : Ranked.t) :
  rank_row fpow s target_price days c = Ok r ->
  exists option_value investment,
    ranker_payoff s target_price c = Ok (option_value, Ranked.profit r, investment)
    /\ (Ranked.percent_return r, Ranked.annualized_return r)
       = ranker_returns fpow (Ranked.profit r) investment days
    /\ carries c r.
Proof.
  unfold rank_row.
  destruct (ranker_payoff s target_price c) as [[[v p] i]|e]; [|discriminate].
  cbn [bind]. destruct (ranker_returns fpow p i days) as [pr ar] eqn:Er.
  intros [= <-]. cbn. exists v, i. rewrite Er. now repeat split.
Qed.

(** A candidate that exactly breaks even at the target price is ranked with
    a percent return of 0 and an annualized return of 0. *)
Theorem ranker_zero_profit_zero_return (s : string) (c : Cand.t) (target_price : Q)
    (days : Z) (r : Ranked.t) :
  (forall b e, b == 1 -> fpow b e == 1) ->
  rank_row fpow s target_price days c = Ok r ->
  Ranked.profit r == 0 ->
  Ranked.percent_return r == 0 /\ Ranked.annualized_return r == 0.
Proof.
  intros Hone Hrow Hp.
  destruct (rank_row_inv _ _ _ _ _ Hrow) as (v & i & _ & Hret & _).
  unfold ranker_returns in Hret.
  destruct (Qgt_bool i 0); injection Hret as -> ->; [|split; reflexivity].
  assert (Hz : Ranked.profit r / i * 100 == 0).
  { rewrite Hp. unfold Qdiv. ring. }
  split; [exact Hz|].
  unfold annualize. rewrite Hone; [ring|]. rewrite Hz. reflexivity.
Qed.

(** With 365 days to expiration the annualized return is the percent
    return. *)
Theorem ranker_one_year_horizon (s : string) (cands : list Cand.t) (target_price : Q)
    (today exp_date : Z) (out : list Ranked.t) (r : Ranked.t) :
  (forall b e, e == 1 -> fpow b e == b) ->
  (exp_date - today = 365)%Z ->
  calculate_annualized_returns fpow cands s target_price today exp_date = Ok out ->
  In r out ->
  Ranked.annualized_return r == Ranked.percent_return r.
Proof.
  intros Hpow Hd Hout Hr.
  destruct (ranker_rows _ _ _ _ _ _ _ Hout Hr) as (c & _ & Hrow).
  destruct (rank_row_inv _ _ _ _ _ Hrow) as (v & i & _ & Hret & _).
  unfold ranker_returns, ranker_days in Hret. rewrite Hd in Hret.
  destruct (Qgt_bool i 0) eqn:E; injection Hret as -> ->; [|reflexivity].
  apply Qgt_bool_iff in E.
  unfold annualize. rewrite Hpow by reflexivity. field. lra.
Qed.

(** C6: whenever the ranker returns, its output is a permutation of the
    rows computed for the input candidates (one row per candidate, carrying
    its strike, premium, breakeven and contract); annualized returns do not
    increase along the output; the sort is stable: each class of equal
    annualized returns is in the order the candidates had in the input. *)
Theorem ranker_permutation_sorted_stable (s : string) (cands : list Cand.t)
    (target_price : Q) (today exp_date : Z) (out : list Ranked.t) :
  calculate_annualized_returns fpow cands s target_price today exp_date = Ok out ->
  exists results,
    Forall2 (fun c r =>
               rank_row fpow s target_price (ranker_days today exp_date) c = Ok r
               /\ carries c r) cands results
    /\ Permutation out results
    /\ Permutation (map Ranked.option_data out) (map Cand.option_data cands)
    /\ StronglySorted (descending Ranked.annualized_return) out
    /\ (forall k, ties Ranked.annualized_return k out
                  = ties Ranked.annualized_return k results)
    /\ (forall k, subseq (map Ranked.option_data (ties Ranked.annualized_return k out))
                    (map Cand.option_data cands)).
Proof.
  unfold calculate_annualized_returns.
  destruct (rank_loop fpow s target_price (ranker_days today exp_date) cands)
    as [results|e] eqn:Hloop; [|discriminate].
  cbn [bind]. intros [= <-].
  assert (Hall : Forall2 (fun c r =>
                    rank_row fpow s target_price (ranker_days today exp_date) c = Ok r
                    /\ carries c r) cands results).
  { apply rank_loop_rows in Hloop.
    induction Hloop as [|c r cs rs Hrow _ IH]; constructor; [|exact IH].
    split; [exact Hrow|].
    now destruct (rank_row_inv _ _ _ _ _ Hrow) as (_ & _ & _ & _ & Hc). }
  assert (Hp : Permutation (list_sort Ranked.annualized_return true results) results)
    by apply list_sort_perm.
  assert (Hd := carries_option_data _ _ _ Hall).
  exists results.
  split; [exact Hall|]. split; [exact Hp|].
  split; [rewrite <- Hd; now apply Permutation_map|].
  split; [apply (list_sort_sorted Ranked.annualized_return true)|].
  split; [intro k; apply list_sort_ties|].
  intro k. rewrite list_sort_ties, <- Hd. apply subseq_map_filter.
Qed.

End RankerRows.

(** Two long calls ranked at 120, one year out: the 55 strike, which returns
    more, comes first. *)
Lemma ranker_permutation_sorted_stable_witness :
  exists out,
    calculate_annualized_returns whole_pow
      [Cand.mk 100 5 105 500 500 (Row.mk 100 5 None None) None;
       Cand.mk 55 2 57 200 800 (Row.mk 55 2 None None) None] "call" 120 0 365
    = Ok out
    /\ Permutation (map Ranked.option_data out)
         (map Cand.option_data
            [Cand.mk 100 5 105 500 500 (Row.mk 100 5 None None) None;
             Cand.mk 55 2 57 200 800 (Row.mk 55 2 None None) None])
    /\ StronglySorted (descending Ranked.annualized_return) out.
Proof.
  eexists. split; [reflexivity|].
  destruct (ranker_permutation_sorted_stable whole_pow "call"
              [Cand.mk 100 5 105 500 500 (Row.mk 100 5 None None) None;
               Cand.mk 55 2 57 200 800 (Row.mk 55 2 None None) None] 120 0 365 _
              eq_refl) as (results & _ & _ & Hp & Hs & _).
  split; [exact Hp | exact Hs].
Defined.

Lemma whole_pow_unit_exponent (b e : Q) : e == 1 -> whole_pow b e == b.
Proof.
  intro H. unfold whole_pow. rewrite H. apply Qpower_1_r.
Qed.

(** A long call 100/5 ranked at its breakeven price 105. *)
Lemma ranker_zero_profit_zero_return_witness :
  (forall b e, b == 1 -> whole_pow b e == 1)
  /\ exists r,
      rank_row whole_pow "call" 105 73
        (Cand.mk 100 5 105 500 0 (Row.mk 100 5 None None) None) = Ok r
      /\ Ranked.profit r == 0
      /\ Ranked.percent_return r == 0 /\ Ranked.annualized_return r == 0.
Proof.
  split; [exact whole_pow_one|].
  eexists. split; [reflexivity|]. split; [reflexivity|].
  apply (ranker_zero_profit_zero_return whole_pow "call"
           (Cand.mk 100 5 105 500 0 (Row.mk 100 5 None None) None) 105 73 _
           whole_pow_one eq_refl).
  reflexivity.
Defined.

(** A long call 100/5 at 120, one year out. *)
Lemma ranker_one_year_horizon_witness :
  (forall b e, e == 1 -> whole_pow b e == b)
  /\ (365 - 0 = 365)%Z
  /\ exists out r,
      calculate_annualized_returns whole_pow
        [Cand.mk 100 5 105 500 0 (Row.mk 100 5 None None) None] "call" 120 0 365
      = Ok out
      /\ In r out
      /\ Ranked.annualized_return r == Ranked.percent_return r.
Proof.
  split; [exact whole_pow_unit_exponent|]. split; [reflexivity|].
  do 2 eexists. split; [reflexivity|]. split; [left; reflexivity|].
  apply (ranker_one_year_horizon whole_pow "call"
           [Cand.mk 100 5 105 500 0 (Row.mk 100 5 None None) None] 120 0 365 _ _
           whole_pow_unit_exponent eq_refl eq_refl).
  left. reflexivity.
Defined.

Ltac order_of_prices :=
  repeat match goal with
         | H : Qgt_bool _ _ = true |- _ => apply Qgt_bool_iff in H
         | H : Qgt_bool _ _ = false |- _ => apply Qgt_bool_false in H
         | H : Qlt_bool _ _ = true |- _ => apply Qlt_bool_iff in H
         | H : Qlt_bool _ _ = false |- _ => apply Qlt_bool_false in H
         end.

(** A higher target price never lowers the ranker's profit for a long call,
    a covered call or a cash-secured put, and never raises it for a long
    put. *)
Theorem ranker_profit_monotone (st : Strategy) (c : Cand.t) (low high : Q) :
  low <= high ->
  exists v_low p_low v_high p_high investment,
    ranker_payoff (strategy_name st) low c = Ok (v_low, p_low, investment)
    /\ ranker_payoff (strategy_name st) high c = Ok (v_high, p_high, investment)
    /\ match st with
       | LongPut => p_high <= p_low
       | _ => p_low <= p_high
       end.
Proof.
  intro Hle.
  destruct st; cbn.
  - destruct (Qgt_bool low (Cand.strike c)) eqn:E1;
      destruct (Qgt_bool high (Cand.strike c)) eqn:E2; order_of_prices;
      do 5 eexists; (split; [reflexivity|]); (split; [reflexivity|]); lra.
  - destruct (Qlt_bool low (Cand.strike c)) eqn:E1;
      destruct (Qlt_bool high (Cand.strike c)) eqn:E2; order_of_prices;
      do 5 eexists; (split; [reflexivity|]); (split; [reflexivity|]); lra.
  - destruct (Qgt_bool low (Cand.strike c)) eqn:E1;
      destruct (Qgt_bool high (Cand.strike c)) eqn:E2; order_of_prices;
      do 5 eexists; (split; [reflexivity|]); (split; [reflexivity|]); lra.
  - destruct (Qlt_bool low (Cand.strike c)) eqn:E1;
      destruct (Qlt_bool high (Cand.strike c)) eqn:E2; order_of_prices;
      do 5 eexists; (split; [reflexivity|]); (split; [reflexivity|]); lra.
Qed.

Lemma ranker_profit_monotone_witness :
  110 <= 120
  /\ exists v_low p_low v_high p_high investment,
      ranker_payoff (strategy_name LongCall) 110
        (Cand.mk 100 5 105 500 0 (Row.mk 100 5 None None) None)
      = Ok (v_low, p_low, investment)
      /\ ranker_payoff (strategy_name LongCall) 120
           (Cand.mk 100 5 105 500 0 (Row.mk 100 5 None None) None)
         = Ok (v_high, p_high, investment)
      /\ p_low <= p_high.
Proof.
  assert (H : 110 <= 120) by discriminate.
  split; [exact H|].
  exact (ranker_profit_monotone LongCall
           (Cand.mk 100 5 105 500 0 (Row.mk 100 5 None None) None) 110 120 H).
Defined.

(** ** The evaluator: what it raises *)

(** With a strategy outside the four the evaluator fails with an
    unbound-local error, whatever the selected data. *)
Theorem evaluator_unknown_strategy (fpow : Q -> Q -> Q) (s : string) (future_price : Q)
    (selected_data : Selected.t) (today exp_date : Z) :
  valid_strategy s = false ->
  calculate_option_value fpow s future_price selected_data today exp_date
  = Raise UnboundLocalError.
Proof.
  unfold valid_strategy, calculate_option_value.
  rewrite !orb_false_iff. intros [[[-> ->] ->] ->]. reflexivity.
Qed.

Lemma evaluator_unknown_strategy_witness :
  valid_strategy "straddle" = false
  /\ calculate_option_value whole_pow "straddle" 120
       (Selected.mk (Some 50) (Some 100) (Some (Row.mk 100 5 None None)) None None)
       0 30 = Raise UnboundLocalError.
Proof.
  split; [reflexivity|].
  exact (evaluator_unknown_strategy whole_pow "straddle" 120 _ 0 30 eq_refl).
Defined.

(** A call strategy on selected data without the call keys, or a put
    strategy without the put keys, fails with a KeyError. *)
Theorem evaluator_missing_key (fpow : Q -> Q -> Q) (st : Strategy) (future_price : Q)
    (selected_data : Selected.t) (today exp_date : Z) :
  match st with
  | LongCall | CoveredCall =>
      Selected.call_strike selected_data = None
      \/ Selected.call_option selected_data = None
  | LongPut | CashSecuredPut =>
      Selected.put_strike selected_data = None
      \/ Selected.put_option selected_data = None
  end ->
  calculate_option_value fpow (strategy_name st) future_price selected_data
    today exp_date = Raise KeyError.
Proof.
  destruct st; intros [H|H]; cbn; rewrite H; cbn; try reflexivity.
  - destruct (Selected.call_strike selected_data); reflexivity.
  - destruct (Selected.put_strike selected_data); reflexivity.
  - destruct (Selected.call_strike selected_data); reflexivity.
  - destruct (Selected.put_strike selected_data); reflexivity.
Qed.

(** The selected data built for a put, read as a call. *)
Lemma evaluator_missing_key_witness :
  (Selected.call_strike
     (prepare_selected_data "put" None
        (Ranked.mk 50 2 48 0 0 0 (Row.mk 50 2 None None))) = None
   \/ Selected.call_option
        (prepare_selected_data "put" None
           (Ranked.mk 50 2 48 0 0 0 (Row.mk 50 2 None None))) = None)
  /\ calculate_option_value whole_pow (strategy_name LongCall) 60
       (prepare_selected_data "put" None
          (Ranked.mk 50 2 48 0 0 0 (Row.mk 50 2 None None))) 0 30
     = Raise KeyError.
Proof.
  assert (H : Selected.call_strike
                (prepare_selected_data "put" None
                   (Ranked.mk 50 2 48 0 0 0 (Row.mk 50 2 None None))) = None
              \/ Selected.call_option
                   (prepare_selected_data "put" None
                      (Ranked.mk 50 2 48 0 0 0 (Row.mk 50 2 None None))) = None)
    by (left; reflexivity).
  split; [exact H|].
  exact (evaluator_missing_key whole_pow LongCall 60 _ 0 30 H).
Defined.

(** On the selected data [main] builds for a ranked row, the evaluator
    never lacks a key and never meets an unbound local.  A covered call
    without a stock price fails with a TypeError, a covered call on a stock
    price of zero and a cash-secured put on a strike of zero with a
    ZeroDivisionError.  When it reports, the report is on that row: its
    strike, its premium, at least one day, the price asked for. *)
Theorem evaluator_on_selected_row (fpow : Q -> Q -> Q) (st : Strategy)
    (stock_price : option Q) (r : Ranked.t) (future_price : Q) (today exp_date : Z) :
  let outcome :=
    calculate_option_value fpow (strategy_name st) future_price
      (prepare_selected_data (strategy_name st) stock_price r) today exp_date in
  outcome <> Raise KeyError
  /\ outcome <> Raise UnboundLocalError
  /\ (st = CoveredCall -> stock_price = None -> outcome = Raise TypeError)
  /\ (st = CoveredCall -> (exists s, stock_price = Some s /\ s == 0) ->
      outcome = Raise ZeroDivisionError)
  /\ (st = CashSecuredPut -> Ranked.strike r == 0 -> outcome = Raise ZeroDivisionError)
  /\ (forall rep, outcome = Ok rep ->
        Report.strike rep = Ranked.strike r
        /\ Report.premium rep = Row.lastPrice (Ranked.option_data r)
        /\ (1 <= Report.days_to_expiration rep)%Z
        /\ Report.future_price rep = future_price
        /\ Report.strategy rep = strategy_name st).
Proof.
  assert (Hd : (1 <= evaluator_days today exp_date)%Z).
  { rewrite evaluator_days_ranker_days. unfold ranker_days. lia. }
  cbv zeta.
  destruct st; cbn.
  - repeat match goal with |- _ /\ _ => split end; try discriminate.
    intros x [= <-]. now repeat split.
  - repeat match goal with |- _ /\ _ => split end; try discriminate.
    intros x [= <-]. now repeat split.
  - destruct stock_price as [s|]; cbn.
    + unfold py_div. destruct (Qeq_bool s 0) eqn:E; cbn;
        repeat match goal with |- _ /\ _ => split end;
        try discriminate; try reflexivity.
      * intros _ (s' & [= <-] & Hz). apply Qeq_bool_iff in Hz. congruence.
      * intros x [= <-]. now repeat split.
    + repeat match goal with |- _ /\ _ => split end;
        try discriminate; try reflexivity.
      intros _ (s' & Hs' & _). discriminate.
  - unfold py_div. destruct (Qeq_bool (Ranked.strike r) 0) eqn:E; cbn;
      repeat match goal with |- _ /\ _ => split end;
      try discriminate; try reflexivity.
    + intros _ Hz. apply Qeq_bool_iff in Hz. congruence.
    + intros x [= <-]. now repeat split.
Qed.

(** ** calculate_pnl against the evaluator *)

Section Summary.
Variable fpow : Q -> Q -> Q.

(** Long call: whenever the evaluator reports, its loss is at most the
    summary's Maximum Loss (the premium), which is reached at or below the
    strike; above the strike the profit is the future price less strike and
    premium, so it has no cap, as the summary's "Unlimited" says. *)
Theorem long_call_summary_bounds (selected_data : Selected.t) (future_price : Q)
    (today exp_date : Z) (lines : list printed) (rep : Report.t) :
  calculate_pnl "call" (Selected.stock_price selected_data) selected_data = Ok lines ->
  calculate_option_value fpow "call" future_price selected_data today exp_date
    = Ok rep ->
  exists max_loss,
    In (Amount "Maximum Loss" max_loss) lines
    /\ In (Words "Maximum Profit" "Unlimited") lines
    /\ - max_loss <= Report.profit rep
    /\ (future_price <= Report.strike rep -> Report.profit rep == - max_loss)
    /\ (Report.strike rep < future_price ->
        Report.profit rep == future_price - Report.strike rep - max_loss).
Proof.
  unfold calculate_pnl. cbn.
  destruct (Selected.call_strike selected_data) as [K|]; [|discriminate].
  destruct (Selected.call_option selected_data) as [o|]; [|discriminate].
  cbn. intros [= <-] [= <-]. cbn.
  eexists. split; [do 3 right; left; reflexivity|].
  split; [do 4 right; left; reflexivity|].
  repeat split; intros;
    destruct (Qgt_bool future_price K) eqn:E; order_of_prices; lra.
Qed.


(** Covered call: whenever the evaluator reports, its profit is at most the
    summary's Maximum Profit, and equal to it at or above the strike. *)
Theorem covered_call_summary_bounds (selected_data : Selected.t) (future_price : Q)
    (today exp_date : Z) (lines : list printed) (rep : Report.t) :
  calculate_pnl "covered_call" (Selected.stock_price selected_data) selected_data
    = Ok lines ->
  calculate_option_value fpow "covered_call" future_price selected_data today exp_date
    = Ok rep ->
  exists max_profit,
    In (Amount "Maximum Profit" max_profit) lines
    /\ Report.profit rep <= max_profit
    /\ (Report.strike rep <= future_price -> Report.profit rep == max_profit).
Proof.
  unfold calculate_pnl. cbn.
  destruct (Selected.call_strike selected_data) as [K|]; [|discriminate].
  destruct (Selected.call_option selected_data) as [o|]; [|discriminate].
  destruct (Selected.stock_price selected_data) as [S|]; [|discriminate].
  cbn. intros [= <-].
  destruct (py_div _ S) as [ratio|]; [|discriminate].
  cbn. intros [= <-]. cbn.
  eexists. split; [do 3 right; left; reflexivity|].
  split; [|intro H];
    destruct (Qgt_bool future_price K) eqn:E; order_of_prices; lra.
Qed.

(** Cash-secured put: whenever the evaluator reports, its profit is at most
    the Maximum Profit (the premium), equal to it at or above the strike;
    with a strike and a future price that are not negative the loss never
    exceeds the Maximum Loss. *)
Theorem cash_secured_put_summary_bounds (selected_data : Selected.t) (future_price : Q)
    (today exp_date : Z) (lines : list printed) (rep : Report.t) :
  calculate_pnl "cash_secured_put" (Selected.stock_price selected_data) selected_data
    = Ok lines ->
  calculate_option_value fpow "cash_secured_put" future_price selected_data
    today exp_date = Ok rep ->
  exists max_profit max_loss,
    In (Amount "Maximum Profit" max_profit) lines
    /\ In (Amount "Maximum Loss" max_loss) lines
    /\ Report.profit rep <= max_profit
    /\ (Report.strike rep <= future_price -> Report.profit rep == max_profit)
    /\ (0 <= Report.strike rep -> 0 <= future_price -> - max_loss <= Report.profit rep).
Proof.
  unfold calculate_pnl. cbn.
  destruct (Selected.put_strike selected_data) as [K|]; [|discriminate].
  destruct (Selected.put_option selected_data) as [o|]; [|discriminate].
  cbn. intros [= <-].
  destruct (py_div _ K) as [ratio|]; [|discriminate].
  cbn. intros [= <-]. cbn.
  do 2 eexists. split; [do 2 right; left; reflexivity|].
  split; [do 4 right; left; reflexivity|].
  repeat split; intros;
    destruct (Qlt_bool future_price K) eqn:E; order_of_prices; lra.
Qed.

(** The summary's Breakeven Price is the breakeven of the specification's
    table, and the evaluator's profit there is zero when the premium is not
    negative (for a covered call, when the breakeven is not above the
    strike). *)
Theorem summary_breakeven_is_zero_profit (st : Strategy) (selected_data : Selected.t)
    (today exp_date : Z) (lines : list printed) :
  calculate_pnl (strategy_name st) (Selected.stock_price selected_data) selected_data
    = Ok lines ->
  exists breakeven,
    In (Amount "Breakeven Price" breakeven) lines
    /\ forall rep,
         calculate_option_value fpow (strategy_name st) breakeven selected_data
           today exp_date = Ok rep ->
         breakeven
         == spec_breakeven st (Report.strike rep) (Report.premium rep)
              (entry_price (Selected.stock_price selected_data))
         /\ (0 <= Report.premium rep ->
             (st = CoveredCall -> breakeven <= Report.strike rep) ->
             Report.profit rep == 0).
Proof.
  unfold calculate_pnl.
  destruct st; cbn.
  - destruct (Selected.call_strike selected_data) as [K|]; [|discriminate].
    destruct (Selected.call_option selected_data) as [o|]; [|discriminate].
    cbn. intros [= <-].
    eexists. split; [do 2 right; left; reflexivity|].
    intros rep [= <-]. cbn. split; [reflexivity|]. intros Hp _.
    destruct (Qgt_bool (K + Row.lastPrice o) K) eqn:E; order_of_prices; lra.
  - destruct (Selected.put_strike selected_data) as [K|]; [|discriminate].
    destruct (Selected.put_option selected_data) as [o|]; [|discriminate].
    cbn. intros [= <-].
    eexists. split; [do 2 right; left; reflexivity|].
    intros rep [= <-]. cbn. split; [reflexivity|]. intros Hp _.
    destruct (Qlt_bool (K - Row.lastPrice o) K) eqn:E; order_of_prices; lra.
  - destruct (Selected.call_strike selected_data) as [K|]; [|discriminate].
    destruct (Selected.call_option selected_data) as [o|]; [|discriminate].
    destruct (Selected.stock_price selected_data) as [S|]; [|discriminate].
    cbn. intros [= <-].
    eexists. split; [do 4 right; left; reflexivity|].
    intros rep. destruct (py_div _ S) as [ratio|]; [|discriminate].
    cbn. intros [= <-]. cbn. split; [reflexivity|]. intros Hp Hk.
    specialize (Hk eq_refl).
    destruct (Qgt_bool (S - Row.lastPrice o) K) eqn:E; order_of_prices; lra.
  - destruct (Selected.put_strike selected_data) as [K|]; [|discriminate].
    destruct (Selected.put_option selected_data) as [o|]; [|discriminate].
    cbn. intros [= <-].
    eexists. split; [do 3 right; left; reflexivity|].
    intros rep. destruct (py_div _ K) as [ratio|]; [|discriminate].
    cbn. intros [= <-]. cbn. split; [reflexivity|]. intros Hp _.
    destruct (Qlt_bool (K - Row.lastPrice o) K) eqn:E; order_of_prices; lra.
Qed.

End Summary.

Lemma long_call_summary_bounds_witness :
  exists lines rep,
    calculate_pnl "call" (Selected.stock_price sample_call_data) sample_call_data
    = Ok lines
    /\ calculate_option_value whole_pow "call" 60 sample_call_data 0 73 = Ok rep
    /\ exists max_loss,
        In (Amount "Maximum Loss" max_loss) lines
        /\ In (Words "Maximum Profit" "Unlimited") lines
        /\ - max_loss <= Report.profit rep
        /\ (60 <= Report.strike rep -> Report.profit rep == - max_loss)
        /\ (Report.strike rep < 60 ->
            Report.profit rep == 60 - Report.strike rep - max_loss).
Proof.
  do 2 eexists. split; [reflexivity|]. split; [reflexivity|].
  apply (long_call_summary_bounds whole_pow sample_call_data 60 0 73);
    reflexivity.
Defined.


Lemma covered_call_summary_bounds_witness :
  exists lines rep,
    calculate_pnl "covered_call" (Selected.stock_price sample_call_data)
      sample_call_data = Ok lines
    /\ calculate_option_value whole_pow "covered_call" 60 sample_call_data 0 73 = Ok rep
    /\ exists max_profit,
        In (Amount "Maximum Profit" max_profit) lines
        /\ Report.profit rep <= max_profit
        /\ (Report.strike rep <= 60 -> Report.profit rep == max_profit).
Proof.
  do 2 eexists. split; [reflexivity|]. split; [reflexivity|].
  apply (covered_call_summary_bounds whole_pow sample_call_data 60 0 73);
    reflexivity.
Defined.

Lemma cash_secured_put_summary_bounds_witness :
  exists lines rep,
    calculate_pnl "cash_secured_put" (Selected.stock_price sample_put_data)
      sample_put_data = Ok lines
    /\ calculate_option_value whole_pow "cash_secured_put" 35 sample_put_data 0 73
       = Ok rep
    /\ exists max_profit max_loss,
        In (Amount "Maximum Profit" max_profit) lines
        /\ In (Amount "Maximum Loss" max_loss) lines
        /\ Report.profit rep <= max_profit
        /\ (Report.strike rep <= 35 -> Report.profit rep == max_profit)
        /\ (0 <= Report.strike rep -> 0 <= 35 -> - max_loss <= Report.profit rep).
Proof.
  do 2 eexists. split; [reflexivity|]. split; [reflexivity|].
  apply (cash_secured_put_summary_bounds whole_pow sample_put_data 35 0 73);
    reflexivity.
Defined.

Lemma summary_breakeven_is_zero_profit_witness :
  exists lines,
    calculate_pnl (strategy_name CashSecuredPut) (Selected.stock_price sample_put_data)
      sample_put_data = Ok lines
    /\ exists breakeven,
        In (Amount "Breakeven Price" breakeven) lines
        /\ forall rep,
             calculate_option_value whole_pow (strategy_name CashSecuredPut) breakeven
               sample_put_data 0 73 = Ok rep ->
             breakeven
             == spec_breakeven CashSecuredPut (Report.strike rep) (Report.premium rep)
                  (entry_price (Selected.stock_price sample_put_data))
             /\ (0 <= Report.premium rep ->
                 (CashSecuredPut = CoveredCall -> breakeven <= Report.strike rep) ->
                 Report.profit rep == 0).
Proof.
  eexists. split; [reflexivity|].
  apply (summary_breakeven_is_zero_profit whole_pow CashSecuredPut sample_put_data 0 73).
  reflexivity.
Defined.

(** ** select_expiration *)

Lemma min_index_spec (keys : list Z) (i : nat) (m : Z) :
  min_index keys = Some (i, m) ->
  nth_error keys i = Some m
  /\ (forall j k, nth_error keys j = Some k -> (m <= k)%Z)
  /\ (forall j k, (j < i)%nat -> nth_error keys j = Some k -> (m < k)%Z).
Proof.
  revert i m. induction keys as [|k ks IH]; intros i m; cbn [min_index].
  - discriminate.
  - destruct (min_index ks) as [[i' m']|] eqn:E.
    + destruct (IH i' m' eq_refl) as (Hn & Hmin & Hfirst).
      destruct (Z.leb_spec k m') as [Hle|Hlt]; intros [= <- <-].
      * split; [reflexivity|]. split.
        -- intros [|j] k'; cbn; [intros [= <-]; lia|].
           intro Hj. specialize (Hmin _ _ Hj). lia.
        -- intros j k' Hj. lia.
      * split; [exact Hn|]. split.
        -- intros [|j] k'; cbn; [intros [= <-]; lia | apply Hmin].
        -- intros [|j] k' Hj; cbn; [intros [= <-]; lia|].
           apply Hfirst. lia.
    + intros [= <- <-]. destruct ks as [|k' ks'].
      * split; [reflexivity|]. split.
        -- intros [|[|j]] k'; cbn; try discriminate. intros [= <-]. lia.
        -- intros j k' Hj. lia.
      * cbn [min_index] in E. destruct (min_index ks') as [[? ?]|];
          [destruct (_ <=? _)%Z|]; discriminate.
Qed.

Lemma closest_index_spec (expirations : list Z) (target_date : Z) (i : nat) :
  closest_index expirations target_date = Some i ->
  exists d,
    nth_error expirations i = Some d
    /\ (forall e, In e expirations ->
          (Z.abs (d - target_date) <= Z.abs (e - target_date))%Z)
    /\ (forall j e, (j < i)%nat -> nth_error expirations j = Some e ->
          (Z.abs (d - target_date) < Z.abs (e - target_date))%Z).
Proof.
  unfold closest_index.
  destruct (min_index _) as [[i' m]|] eqn:E; [|discriminate].
  cbn. intros [= <-].
  destruct (min_index_spec _ _ _ E) as (Hn & Hmin & Hfirst).
  rewrite nth_error_map in Hn.
  destruct (nth_error expirations i') as [d|] eqn:Ed; [|discriminate].
  cbn in Hn. injection Hn as <-.
  exists d. split; [reflexivity|]. split.
  - intros e He. apply In_nth_error in He. destruct He as [j Hj].
    apply (Hmin j). rewrite nth_error_map, Hj. reflexivity.
  - intros j e Hlt Hj. apply (Hfirst j); [exact Hlt|].
    rewrite nth_error_map, Hj. reflexivity.
Qed.

Lemma closest_index_some (expirations : list Z) (target_date : Z) :
  expirations <> [] -> exists i, closest_index expirations target_date = Some i.
Proof.
  unfold closest_index. destruct expirations as [|e es]; [congruence|]. intros _.
  cbn [map min_index]. destruct (min_index _) as [[i m]|].
  - destruct (_ <=? _)%Z; eexists; reflexivity.
  - eexists; reflexivity.
Qed.

(** The prompt only ever hands back a date that is in the list, after
    reading at least one line; it never exits and never raises, it can only
    run out of input. *)
Theorem select_expiration_returns_listed (expirations : list Z) (stdin : list Line.t) :
  match select_expiration expirations stdin with
  | Done (d, rest) =>
      In d expirations /\ exists read, read <> [] /\ stdin = read ++ rest
  | EndOfInput => True
  | Exit _ | Fault _ => False
  end.
Proof.
  induction stdin as [|choice rest IH]; cbn [select_expiration]; [exact I|].
  assert (Hskip :
    match select_expiration expirations rest with
    | Done (d, rest') =>
        In d expirations /\ exists read, read <> [] /\ choice :: rest = read ++ rest'
    | EndOfInput => True
    | Exit _ | Fault _ => False
    end).
  { destruct (select_expiration expirations rest) as [[d rest']| | |]; try exact IH.
    destruct IH as (Hd & read & _ & ->).
    split; [exact Hd|]. exists (choice :: read). split; [discriminate | reflexivity]. }
  destruct (Line.as_int choice) as [n|].
  - destruct ((0 <=? n - 1)%Z && (n - 1 <? Z.of_nat (List.length expirations))%Z) eqn:E;
      [|exact Hskip].
    apply andb_true_iff in E. destruct E as [E1 E2].
    apply Z.leb_le in E1. apply Z.ltb_lt in E2.
    split; [apply nth_In; lia|].
    exists [choice]. split; [discriminate | reflexivity].
  - destruct (Line.as_date choice) as [t|]; [|exact Hskip].
    destruct (closest_index expirations t) as [i|] eqn:E; [|exact Hskip].
    destruct (closest_index_spec _ _ _ E) as (d & Hd & _).
    split.
    + rewrite (nth_error_nth _ _ 0%Z Hd). eapply nth_error_In; eassumption.
    + exists [choice]. split; [discriminate | reflexivity].
Qed.

(** A typed date picks the expiration closest to it, the earliest one in the
    list when several are as close; a date that is in the list picks
    itself. *)
Theorem select_expiration_closest_date (expirations : list Z) (choice : Line.t)
    (rest : list Line.t) (target_date : Z) :
  Line.as_int choice = None ->
  Line.as_date choice = Some target_date ->
  expirations <> [] ->
  exists d i,
    select_expiration expirations (choice :: rest) = Done (d, rest)
    /\ nth_error expirations i = Some d
    /\ (forall e, In e expirations ->
          (Z.abs (d - target_date) <= Z.abs (e - target_date))%Z)
    /\ (forall j e, (j < i)%nat -> nth_error expirations j = Some e ->
          (Z.abs (d - target_date) < Z.abs (e - target_date))%Z)
    /\ (In target_date expirations -> d = target_date).
Proof.
  intros Hint Hdate Hne. cbn [select_expiration]. rewrite Hint, Hdate.
  destruct (closest_index_some expirations target_date Hne) as [i Hi].
  rewrite Hi.
  destruct (closest_index_spec _ _ _ Hi) as (d & Hd & Hmin & Hfirst).
  exists d, i. rewrite (nth_error_nth _ _ 0%Z Hd).
  split; [reflexivity|]. split; [exact Hd|]. split; [exact Hmin|].
  split; [exact Hfirst|].
  intro Hin. specialize (Hmin _ Hin). lia.
Qed.

(** A typed number between 1 and the number of dates picks that date,
    counting from 1; any other number is refused and the next line is
    read. *)
Theorem select_expiration_by_number (expirations : list Z) (choice : Line.t)
    (rest : list Line.t) (n : Z) :
  Line.as_int choice = Some n ->
  ((1 <= n <= Z.of_nat (List.length expirations))%Z ->
   exists d,
     nth_error expirations (Z.to_nat (n - 1)) = Some d
     /\ select_expiration expirations (choice :: rest) = Done (d, rest))
  /\ (~ (1 <= n <= Z.of_nat (List.length expirations))%Z ->
      select_expiration expirations (choice :: rest)
      = select_expiration expirations rest).
Proof.
  intro Hint. cbn [select_expiration]. rewrite Hint. split; intro Hn.
  - destruct (nth_error expirations (Z.to_nat (n - 1))) as [d|] eqn:E.
    + exists d. split; [reflexivity|].
      rewrite (nth_error_nth _ _ 0%Z E).
      replace ((0 <=? n - 1)%Z && (n - 1 <? Z.of_nat (List.length expirations))%Z)
        with true; [reflexivity|].
      symmetry. apply andb_true_iff. split; [apply Z.leb_le | apply Z.ltb_lt]; lia.
    + apply nth_error_None in E. lia.
  - replace ((0 <=? n - 1)%Z && (n - 1 <? Z.of_nat (List.length expirations))%Z)
      with false; [reflexivity|].
    symmetry. apply andb_false_iff.
    destruct (Z.leb_spec 0 (n - 1)); [right; apply Z.ltb_ge; lia | now left].
Qed.

(** With no expiration dates no answer is ever accepted: the prompt reads
    on until the input ends. *)
Theorem select_expiration_no_dates (stdin : list Line.t) :
  select_expiration [] stdin = EndOfInput.
Proof.
  induction stdin as [|choice rest IH]; cbn [select_expiration]; [reflexivity|].
  destruct (Line.as_int choice) as [n|].
  - cbn [List.length Z.of_nat].
    replace ((0 <=? n - 1)%Z && (n - 1 <? 0)%Z) with false; [exact IH|].
    symmetry. apply andb_false_iff.
    destruct (Z.leb_spec 0 (n - 1)); [right; apply Z.ltb_ge; lia | now left].
  - destruct (Line.as_date choice); exact IH.
Qed.

(** Three expirations (17 January, 21 February and 21 March 2025 as
    ordinals); the date typed is 1 February 2025, 15 days from the first and
    20 from the second. *)
Lemma select_expiration_closest_date_witness :
  Line.as_int (Line.mk "2025-02-01" "2025-02-01" "2025-02-01" None (Some 739283%Z) None)
  = None
  /\ Line.as_date
       (Line.mk "2025-02-01" "2025-02-01" "2025-02-01" None (Some 739283%Z) None)
     = Some 739283%Z
  /\ [739268; 739303; 739331]%Z <> []
  /\ exists d i,
      select_expiration [739268; 739303; 739331]%Z
        [Line.mk "2025-02-01" "2025-02-01" "2025-02-01" None (Some 739283%Z) None]
      = Done (d, [])
      /\ nth_error [739268; 739303; 739331]%Z i = Some d
      /\ (forall e, In e [739268; 739303; 739331]%Z ->
            (Z.abs (d - 739283) <= Z.abs (e - 739283))%Z)
      /\ (forall j e, (j < i)%nat -> nth_error [739268; 739303; 739331]%Z j = Some e ->
            (Z.abs (d - 739283) < Z.abs (e - 739283))%Z)
      /\ (In 739283%Z [739268; 739303; 739331]%Z -> d = 739283%Z).
Proof.
  assert (H : [739268; 739303; 739331]%Z <> []) by discriminate.
  split; [reflexivity|]. split; [reflexivity|]. split; [exact H|].
  exact (select_expiration_closest_date [739268; 739303; 739331]%Z
           (Line.mk "2025-02-01" "2025-02-01" "2025-02-01" None (Some 739283%Z) None)
           [] 739283%Z eq_refl eq_refl H).
Defined.

Lemma select_expiration_by_number_witness :
  Line.as_int (Line.mk "2" "2" "2" (Some 2%Z) None (Some 2)) = Some 2%Z
  /\ ((1 <= 2 <= Z.of_nat (List.length [739268; 739303; 739331]%Z))%Z ->
      exists d,
        nth_error [739268; 739303; 739331]%Z (Z.to_nat (2 - 1)) = Some d
        /\ select_expiration [739268; 739303; 739331]%Z
             [Line.mk "2" "2" "2" (Some 2%Z) None (Some 2)] = Done (d, []))
  /\ (~ (1 <= 2 <= Z.of_nat (List.length [739268; 739303; 739331]%Z))%Z ->
      select_expiration [739268; 739303; 739331]%Z
        [Line.mk "2" "2" "2" (Some 2%Z) None (Some 2)]
      = select_expiration [739268; 739303; 739331]%Z []).
Proof.
  split; [reflexivity|].
  exact (select_expiration_by_number [739268; 739303; 739331]%Z
           (Line.mk "2" "2" "2" (Some 2%Z) None (Some 2)) [] 2 eq_refl).
Defined.

(** ** The tables *)

Lemma StronglySorted_app_order {A : Type} (R : A -> A -> Prop) (l1 l2 : list A) :
  StronglySorted R (l1 ++ l2) ->
  forall a b, In a l1 -> In b l2 -> R a b.
Proof.
  induction l1 as [|x xs IH]; cbn; intros Hs a b Ha Hb; [destruct Ha|].
  inversion Hs as [|? ? Hxs Hall]; subst.
  destruct Ha as [<-|Ha].
  - rewrite Forall_forall in Hall. apply Hall. apply in_or_app. now right.
  - now apply (IH Hxs).
Qed.

(** [display_top_returns] on the ranker's output shows its first
    [min(limit, len)] rows (none for a limit that is not positive), and no
    row it leaves out has a higher annualized return than a row it shows. *)
Theorem display_top_returns_best (fpow : Q -> Q -> Q) (s : string) (cands : list Cand.t)
    (target_price : Q) (today exp_date : Z) (out : list Ranked.t) (limit : Z) :
  calculate_annualized_returns fpow cands s target_price today exp_date = Ok out ->
  List.length (display_top_returns out limit)
  = Z.to_nat (Z.min limit (Z.of_nat (List.length out)))
  /\ exists hidden,
      out = display_top_returns out limit ++ hidden
      /\ forall r r', In r (display_top_returns out limit) -> In r' hidden ->
           Ranked.annualized_return r' <= Ranked.annualized_return r.
Proof.
  unfold calculate_annualized_returns.
  destruct (rank_loop fpow s target_price (ranker_days today exp_date) cands)
    as [results|e]; [|discriminate].
  cbn [bind]. intros [= <-].
  set (out := list_sort Ranked.annualized_return true results).
  unfold display_top_returns.
  set (n := Z.to_nat (Z.min limit (Z.of_nat (List.length out)))).
  split; [rewrite length_firstn; lia|].
  exists (skipn n out). split; [symmetry; apply firstn_skipn|].
  assert (Hs : StronglySorted (in_order Ranked.annualized_return true)
                 (firstn n out ++ skipn n out)).
  { rewrite firstn_skipn. apply list_sort_sorted. }
  intros r r' Hr Hr'.
  exact (StronglySorted_app_order _ _ _ Hs r r' Hr Hr').
Qed.

(** Two ranked rows, the better one first, and a limit of 1. *)
Lemma display_top_returns_best_witness :
  exists out,
    calculate_annualized_returns whole_pow
      [Cand.mk 55 2 57 200 800 (Row.mk 55 2 None None) None;
       Cand.mk 100 5 105 500 500 (Row.mk 100 5 None None) None] "call" 120 0 365
    = Ok out
    /\ List.length (display_top_returns out 1)
       = Z.to_nat (Z.min 1 (Z.of_nat (List.length out)))
    /\ exists hidden,
        out = display_top_returns out 1 ++ hidden
        /\ forall r r', In r (display_top_returns out 1) -> In r' hidden ->
             Ranked.annualized_return r' <= Ranked.annualized_return r.
Proof.
  eexists. split; [reflexivity|].
  apply (display_top_returns_best whole_pow "call"
           [Cand.mk 55 2 57 200 800 (Row.mk 55 2 None None) None;
            Cand.mk 100 5 105 500 500 (Row.mk 100 5 None None) None] 120 0 365).
  reflexivity.
Defined.

Lemma filtered_rows_long (s : string) (i : Z) (cands : list Cand.t) :
  (s =? "call")%string || (s =? "put")%string = true ->
  exists rows, filtered_rows s i cands = Ok rows /\ List.length rows = List.length cands.
Proof.
  intro Hs. revert i. induction cands as [|c rest IH]; intro i; cbn [filtered_rows].
  - exists []. now split.
  - unfold filtered_row. rewrite Hs. cbn [bind].
    destruct (IH (i + 1)%Z) as (rows & -> & Hl). cbn [bind].
    eexists. split; [reflexivity|]. cbn. now rewrite Hl.
Qed.

Lemma filtered_rows_short (s : string) (i : Z) (cands : list Cand.t) :
  (s =? "call")%string || (s =? "put")%string = false ->
  if forallb (fun c => negb (Qeq_bool
                         (if (s =? "covered_call")%string
                          then Cand.strike c - Cand.premium c else Cand.strike c) 0))
       cands
  then exists rows,
         filtered_rows s i cands = Ok rows /\ List.length rows = List.length cands
  else filtered_rows s i cands = Raise ZeroDivisionError.
Proof.
  intro Hl. revert i.
  induction cands as [|c rest IH]; intro i; cbn [forallb filtered_rows].
  - exists []. now split.
  - unfold filtered_row. rewrite Hl. specialize (IH (i + 1)%Z).
    destruct (s =? "covered_call")%string; unfold py_div;
      (destruct (Qeq_bool _ 0); cbn [negb andb bind]; [reflexivity|]);
      (revert IH; destruct (forallb _ rest); intro IH;
       [destruct IH as (rows & -> & Hlen); cbn [bind];
        eexists; split; [reflexivity | cbn; now rewrite Hlen]
       | rewrite IH; reflexivity]).
Qed.

(** [display_filtered_options] builds one row per candidate for a long call
    or a long put.  For any other strategy it divides the premium by
    strike - premium (covered call) or by the strike: it builds one row per
    candidate when no such base is zero and fails with a ZeroDivisionError
    when one is. *)
Theorem display_filtered_options_zero_base (s : string) (cands : list Cand.t) :
  let long := (s =? "call")%string || (s =? "put")%string in
  let base := fun c =>
    if (s =? "covered_call")%string
    then Cand.strike c - Cand.premium c else Cand.strike c in
  if long || forallb (fun c => negb (Qeq_bool (base c) 0)) cands
  then exists rows,
         display_filtered_options cands s = Ok rows
         /\ List.length rows = List.length cands
  else display_filtered_options cands s = Raise ZeroDivisionError.
Proof.
  cbv zeta. unfold display_filtered_options.
  destruct ((s =? "call")%string || (s =? "put")%string) eqn:Hl; cbn [orb].
  - now apply filtered_rows_long.
  - now apply filtered_rows_short.
Qed.

(** ** main *)

Lemma dict_get_strategies (k s : string) :
  dict_get strategies k = Some s -> exists st, s = strategy_name st.
Proof.
  unfold strategies. cbn [dict_get].
  destruct (k =? "c")%string; [intros [= <-]; now exists LongCall|].
  destruct (k =? "p")%string; [intros [= <-]; now exists LongPut|].
  destruct (k =? "cc")%string; [intros [= <-]; now exists CoveredCall|].
  destruct (k =? "csp")%string; [intros [= <-]; now exists CashSecuredPut|].
  discriminate.
Qed.

Lemma select_strategy_cases (stdin : list Line.t) :
  match select_strategy stdin with
  | Done (s, _) => exists st, s = strategy_name st
  | EndOfInput => True
  | Exit _ | Fault _ => False
  end.
Proof.
  induction stdin as [|l rest IH]; cbn [select_strategy]; [exact I|].
  destruct (dict_get strategies (Line.lower_strip l)) as [s|] eqn:E; [|exact IH].
  now apply dict_get_strategies in E.
Qed.

(** The chain [main] hands to the filter. *)
Lemma filter_for_strategy_cases (calls puts : list Row.t) (st : Strategy)
    (investment_amount : Q) (stock_price : option Q) (stdin : list Line.t) :
  match filter_for_strategy calls puts (strategy_name st) investment_amount
          stock_price stdin with
  | Done (out, rest) =>
      rest = stdin
      /\ (st = CoveredCall -> stock_price <> None)
      /\ filter_options_by_investment
           (match st with LongCall | CoveredCall => calls | _ => puts end)
           (strategy_name st) investment_amount stock_price None = Ok out
  | Exit code => code = 1%Z /\ st = CoveredCall /\ stock_price = None
  | Fault _ | EndOfInput => False
  end.
Proof.
  assert (H : forall options,
             (st = CoveredCall -> stock_price <> None) ->
             exists out,
               filter_options_by_investment options (strategy_name st)
                 investment_amount stock_price None = Ok out).
  { intros options Hs.
    destruct (filter_shape st investment_amount stock_price None options Hs)
      as (_ & out & _ & Hf & _). now exists out. }
  destruct st; cbn [filter_for_strategy strategy_name String.eqb Ascii.eqb Bool.eqb];
    unfold call, sys_exit.
  - destruct (H calls) as [out Hf]; [discriminate|].
    cbn in Hf. rewrite Hf. split; [reflexivity|]. split; [discriminate | reflexivity].
  - destruct (H puts) as [out Hf]; [discriminate|].
    cbn in Hf. rewrite Hf. split; [reflexivity|]. split; [discriminate | reflexivity].
  - destruct stock_price as [s|]; [|now repeat split].
    destruct (H calls) as [out Hf]; [discriminate|].
    cbn in Hf. rewrite Hf. split; [reflexivity|]. split; [discriminate | reflexivity].
  - destruct (H puts) as [out Hf]; [discriminate|].
    cbn in Hf. rewrite Hf. split; [reflexivity|]. split; [discriminate | reflexivity].
Qed.

(** Whatever is typed at the strategy prompt, [main] goes on with one of the
    four strategies, so the filter's unbound-local failure cannot be reached
    from it; the filter call that follows never raises: it returns what the
    filter gives for the calls (call, covered call) or the puts (put,
    cash-secured put) with no target breakeven, or exits with status 1 for a
    covered call without a stock price. *)
Theorem main_strategy_and_filter (calls puts : list Row.t) (investment_amount : Q)
    (stock_price : option Q) (stdin later : list Line.t) :
  match select_strategy stdin with
  | Done (s, _) =>
      exists st,
        s = strategy_name st
        /\ match filter_for_strategy calls puts s investment_amount stock_price
                  later with
           | Done (out, unread) =>
               unread = later
               /\ (st = CoveredCall -> stock_price <> None)
               /\ filter_options_by_investment
                    (match st with LongCall | CoveredCall => calls | _ => puts end)
                    s investment_amount stock_price None = Ok out
           | Exit code => code = 1%Z /\ st = CoveredCall /\ stock_price = None
           | Fault _ | EndOfInput => False
           end
  | EndOfInput => True
  | Exit _ | Fault _ => False
  end.
Proof.
  pose proof (select_strategy_cases stdin) as H.
  destruct (select_strategy stdin) as [[s rest]|c|e|]; try exact H.
  destruct H as [st ->]. exists st. split; [reflexivity|].
  apply filter_for_strategy_cases.
Qed.
